(** * bchat: delivery and unread-tracking core of the chat client

    A shallow embedding of the logic of [App.tsx] (the React component
    [App]) and of the records of [types.ts].  React state hooks become the
    fields of one record, [App.t]; every event handler and effect body
    becomes a function on that record.  Calls to the hosted backend are
    not executed by the model: a handler returns the requests it issues
    as a list of [Effect]s and receives the backend's answers as
    arguments, so that every theorem holds whatever the backend answers.
    A session, [Session.t], adds to the hooks what lies between two
    renders: the values the callbacks of the two subscriptions close
    over, the activation effect that is still to run, and the rows whose
    sender lookup is awaited. *)

From stdpp Require Import gmap strings list.

Open Scope string_scope.
Open Scope list_scope.

(** ** Records of [types.ts] *)

Module User.
Record t := mk {
  id : string;
  username : string;
  last_seen : option string
}.
End User.

Module Message.
(** The optional fields [receiver_id?], [group_id?] and [sender?] are
    [None] when the property is undefined or null in the row. *)
Record t := mk {
  id : string;
  sender_id : string;
  receiver_id : option string;
  group_id : option string;
  content : string;
  created_at : string;
  sender : option User.t
}.
End Message.

Module Group.
Record t := mk {
  id : string;
  name : string;
  created_at : string
}.
End Group.

Module GroupMember.
Record t := mk {
  group_id : string;
  user_id : string
}.
End GroupMember.

(** The state of the [activeChat] hook: [{ type: 'user' | 'group', id }]. *)
Inductive ChatType := user | group.

Module ActiveChat.
Record t := mk {
  type : ChatType;
  id : string
}.
End ActiveChat.

#[global] Instance ChatType_eq_dec : EqDecision ChatType.
Proof. solve_decision. Defined.

(** ** JavaScript operators on optional strings *)

(** Truthiness of a [string | undefined] value: undefined, null and the
    empty string are falsy. *)
Definition truthy (o : option string) : bool :=
  match o with
  | Some s => negb (bool_decide (s = ""))
  | None => false
  end.

(** [a || b] where [a] is an optional string and [b] a string. *)
Definition or_else (a : option string) (b : string) : string :=
  match a with
  | Some s => if bool_decide (s = "") then b else s
  | None => b
  end.

(** [a === b] where [a] is an optional string and [b] a string. *)
Definition strict_eq (a : option string) (b : string) : bool :=
  bool_decide (a = Some b).

(** A field is present when the code treats it as set, that is when it is
    truthy. *)
Definition present (o : option string) : Prop :=
  ∃ s, o = Some s ∧ s ≠ "".

(** ** Unread tracker: the [unreadCounts] hook and its two writers *)

(** [prev[chatId] || 0]: the count read from the record, 0 for a missing
    entry.  Conversation ids are keys generated by the database (none of
    them is a property name an object inherits), so the
    [Record<string, number>] is the finite map from them to counts.  A
    count is a number that only ever holds 0 or the result of adding 1 to
    a count: a natural number. *)
Definition count_of (counts : gmap string nat) (chatId : string) : nat :=
  default 0 (counts !! chatId).

(** The updater of the activation effect (App.tsx, "Clear unread count when
    chat becomes active"): [prev => ({ ...prev, [activeChat.id]: 0 })]. *)
Definition onConversationActivated (conversationId : string)
    (prev : gmap string nat) : gmap string nat :=
  <[conversationId := 0]> prev.

(** [const chatId = msg.group_id || msg.sender_id]. *)
Definition chatId (msg : Message.t) : string :=
  or_else (Message.group_id msg) (Message.sender_id msg).

(** [const isRelevant = msg.group_id || msg.receiver_id === currentUser.id],
    read as a condition. *)
Definition isRelevant (currentUser : User.t) (msg : Message.t) : bool :=
  truthy (Message.group_id msg)
  || strict_eq (Message.receiver_id msg) (User.id currentUser).

(** [activeChat?.id === chatId]: false when there is no active chat. *)
Definition is_active_chat (activeChat : option ActiveChat.t)
    (chatId : string) : bool :=
  match activeChat with
  | Some a => bool_decide (ActiveChat.id a = chatId)
  | None => false
  end.

(** The callback of the global ['global:messages'] subscription, as a
    function of the values it closes over ([currentUser], [activeChat]),
    of the inserted row and of the previous [unreadCounts]. *)
Definition onMessageObserved (currentUser : User.t)
    (activeChat : option ActiveChat.t) (msg : Message.t)
    (prev : gmap string nat) : gmap string nat :=
  if bool_decide (Message.sender_id msg = User.id currentUser) then prev
  else
    let chatId := chatId msg in
    if is_active_chat activeChat chatId then prev
    else if negb (isRelevant currentUser msg) then prev
    else <[chatId := count_of prev chatId + 1]> prev.

(** Several inserted rows delivered one after the other. *)
Definition observe_all (currentUser : User.t)
    (activeChat : option ActiveChat.t) (msgs : list Message.t)
    (prev : gmap string nat) : gmap string nat :=
  foldl (λ counts msg, onMessageObserved currentUser activeChat msg counts)
        prev msgs.

(** ** The hooks of [App] *)

Module App.
(** One field per [useState] hook that the modelled handlers read or
    write.  The hooks that only drive the display ([activeTab], the
    modal flags, [users], [groups], [newGroupName]) are left out. *)
Record t := mk {
  currentUser : option User.t;
  usernameInput : string;
  isLoggingIn : bool;
  activeChat : option ActiveChat.t;
  unreadCounts : gmap string nat;
  messages : list Message.t;
  newMessage : string
}.

(** The initial values given to [useState]. *)
Definition initial : t := mk None "" false None ∅ [] "".
End App.

Definition setCurrentUser (v : option User.t) (st : App.t) : App.t :=
  App.mk v (App.usernameInput st) (App.isLoggingIn st) (App.activeChat st)
         (App.unreadCounts st) (App.messages st) (App.newMessage st).

Definition setUsernameInput (v : string) (st : App.t) : App.t :=
  App.mk (App.currentUser st) v (App.isLoggingIn st) (App.activeChat st)
         (App.unreadCounts st) (App.messages st) (App.newMessage st).

Definition setIsLoggingIn (v : bool) (st : App.t) : App.t :=
  App.mk (App.currentUser st) (App.usernameInput st) v (App.activeChat st)
         (App.unreadCounts st) (App.messages st) (App.newMessage st).

Definition setActiveChat (v : option ActiveChat.t) (st : App.t) : App.t :=
  App.mk (App.currentUser st) (App.usernameInput st) (App.isLoggingIn st) v
         (App.unreadCounts st) (App.messages st) (App.newMessage st).

(** [setUnreadCounts] is always called with an updater function. *)
Definition setUnreadCounts (f : gmap string nat → gmap string nat)
    (st : App.t) : App.t :=
  App.mk (App.currentUser st) (App.usernameInput st) (App.isLoggingIn st)
         (App.activeChat st) (f (App.unreadCounts st)) (App.messages st)
         (App.newMessage st).

Definition setMessages (v : list Message.t) (st : App.t) : App.t :=
  App.mk (App.currentUser st) (App.usernameInput st) (App.isLoggingIn st)
         (App.activeChat st) (App.unreadCounts st) v (App.newMessage st).

Definition setNewMessage (v : string) (st : App.t) : App.t :=
  App.mk (App.currentUser st) (App.usernameInput st) (App.isLoggingIn st)
         (App.activeChat st) (App.unreadCounts st) (App.messages st) v.

(** ** Requests to the backend and other side effects *)

(** The object built by [sendMessage] and passed to [insert]: [sender_id]
    and [content], then [receiver_id] or [group_id]. *)
Module MessageData.
Record t := mk {
  sender_id : string;
  content : string;
  receiver_id : option string;
  group_id : option string
}.
End MessageData.

(** The [{ data, error }] object every backend call resolves to. *)
Module Response.
Record t (A : Type) := mk {
  data : option A;
  error : option string
}.
Arguments mk {A} _ _.
Arguments data {A} _.
Arguments error {A} _.
End Response.

Inductive Effect :=
| SelectUserByUsername (username : string)
| SelectUserById (id : string)
| InsertUser (username : string)
| InsertMessage (messageData : MessageData.t)
| LocalStorageSetItem (key : string) (value : User.t)
| LocalStorageRemoveItem (key : string)
| ConsoleError (label : string)
| Alert (text : string).

(** The requests of a trace that create a row. *)
Definition is_insert (e : Effect) : bool :=
  match e with
  | InsertUser _ | InsertMessage _ => true
  | _ => false
  end.

Definition is_alert (e : Effect) : bool :=
  match e with
  | Alert _ => true
  | _ => false
  end.

(** ** Conversation loader: the per-conversation subscription *)

(** The test of the ['chat:<id>'] callback for a 1-on-1 chat, which is also
    the [or(and(..),and(..))] filter of the history query. *)
Definition isRelevantDirect (currentUser : User.t) (activeChat : ActiveChat.t)
    (newMessage : Message.t) : bool :=
  (bool_decide (Message.sender_id newMessage = User.id currentUser)
   && strict_eq (Message.receiver_id newMessage) (ActiveChat.id activeChat))
  || (bool_decide (Message.sender_id newMessage = ActiveChat.id activeChat)
      && strict_eq (Message.receiver_id newMessage) (User.id currentUser)).

(** [{ ...newMessage, sender }]. *)
Definition with_sender (newMessage : Message.t) (sender : option User.t)
    : Message.t :=
  Message.mk (Message.id newMessage) (Message.sender_id newMessage)
             (Message.receiver_id newMessage) (Message.group_id newMessage)
             (Message.content newMessage) (Message.created_at newMessage)
             sender.

(** The callback of the ['chat:<activeChat.id>'] subscription.  [lookup] is
    the answer to the sender query the callback awaits before appending. *)
Definition onChatInsert (currentUser : User.t) (activeChat : ActiveChat.t)
    (lookup : Response.t User.t) (newMessage : Message.t)
    (prev : list Message.t) : list Message.t * list Effect :=
  if bool_decide (ActiveChat.type activeChat = user)
     && negb (isRelevantDirect currentUser activeChat newMessage)
  then (prev, [])
  else (prev ++ [with_sender newMessage (Response.data lookup)],
        [SelectUserById (Message.sender_id newMessage)]).

(** The [filter] option of the subscription, applied by the feed before
    the callback runs: [group_id=eq.<id>] for a group, none for a user. *)
Definition chat_feed_filter (activeChat : ActiveChat.t) (row : Message.t)
    : bool :=
  match ActiveChat.type activeChat with
  | group => strict_eq (Message.group_id row) (ActiveChat.id activeChat)
  | user => true
  end.

(** ** Conversation loader: the history query *)

(** The row filter [fetchMessages] adds to the query. *)
Definition history_filter (currentUser : User.t) (activeChat : ActiveChat.t)
    (row : Message.t) : bool :=
  match ActiveChat.type activeChat with
  | user => isRelevantDirect currentUser activeChat row
  | group => strict_eq (Message.group_id row) (ActiveChat.id activeChat)
  end.

(** The embedded resource [sender:users] of the select: the user row the
    foreign key [sender_id] points to. *)
Definition join_sender (users : list User.t) (row : Message.t) : Message.t :=
  with_sender row
    (find (λ u, bool_decide (User.id u = Message.sender_id row)) users).

(** The state update at the end of [fetchMessages]:
    [if (data) setMessages(data)]. *)
Definition fetchMessages (data : option (list Message.t)) (st : App.t)
    : App.t :=
  match data with
  | Some rows => setMessages rows st
  | None => st
  end.

(** ** The message store *)

(** Modelled from the spec: the Message Store is an external collaborator,
    a "durable append-only log of messages, keyed by id", whose insert is
    atomic.  The table is the list of its rows in insertion order; [id]
    and [created_at] are the column defaults the database fills in, and an
    insert whose [id] is already a key is rejected. *)
Definition insert_message (id created_at : string)
    (messageData : MessageData.t) (rows : list Message.t)
    : list Message.t + string :=
  if bool_decide (id ∈ (Message.id <$> rows)) then inr "duplicate key"
  else inl (rows ++ [Message.mk id (MessageData.sender_id messageData)
                       (MessageData.receiver_id messageData)
                       (MessageData.group_id messageData)
                       (MessageData.content messageData) created_at None]).

(** Modelled from the spec: the store's "point lookup by id", asked with
    [.single()], answers with the row when the query selects exactly one
    row, and with an error and no data otherwise. *)
Definition single {A : Type} (rows : list A) : Response.t A :=
  match rows with
  | [row] => Response.mk (Some row) None
  | _ => Response.mk None (Some "PGRST116")
  end.

(** The sender query of the chat callback,
    [from('users').select(..).eq('id', newMessage.sender_id).single()],
    evaluated on the users table. *)
Definition select_user_by_id (users : list User.t) (id : string)
    : Response.t User.t :=
  single (List.filter (λ u, bool_decide (User.id u = id)) users).

(** How many rows of a list carry a given key. *)
Definition occurrences (id : string) (rows : list Message.t) : nat :=
  length (List.filter (λ row, bool_decide (Message.id row = id)) rows).

(** ** The sidebar: the remaining hooks of [App] *)

Module Tab.
(** The values of the [activeTab] hook. *)
Inductive t := chats | groups.
End Tab.

Module Sidebar.
(** The hooks of [App] that [App.t] leaves out. *)
Record t := mk {
  activeTab : Tab.t;
  users : list User.t;
  groups : list Group.t;
  isNewChatModalOpen : bool;
  isNewGroupModalOpen : bool;
  newGroupName : string
}.

(** The initial values given to [useState]. *)
Definition initial : t := mk Tab.chats [] [] false false "".
End Sidebar.

Definition setUsers (v : list User.t) (sb : Sidebar.t) : Sidebar.t :=
  Sidebar.mk (Sidebar.activeTab sb) v (Sidebar.groups sb)
             (Sidebar.isNewChatModalOpen sb) (Sidebar.isNewGroupModalOpen sb)
             (Sidebar.newGroupName sb).

(** [setGroups] with a value and with an updater are both this function,
    given the new list. *)
Definition setGroups (v : list Group.t) (sb : Sidebar.t) : Sidebar.t :=
  Sidebar.mk (Sidebar.activeTab sb) (Sidebar.users sb) v
             (Sidebar.isNewChatModalOpen sb) (Sidebar.isNewGroupModalOpen sb)
             (Sidebar.newGroupName sb).

Definition setIsNewGroupModalOpen (v : bool) (sb : Sidebar.t) : Sidebar.t :=
  Sidebar.mk (Sidebar.activeTab sb) (Sidebar.users sb) (Sidebar.groups sb)
             (Sidebar.isNewChatModalOpen sb) v (Sidebar.newGroupName sb).

Definition setNewGroupName (v : string) (sb : Sidebar.t) : Sidebar.t :=
  Sidebar.mk (Sidebar.activeTab sb) (Sidebar.users sb) (Sidebar.groups sb)
             (Sidebar.isNewChatModalOpen sb) (Sidebar.isNewGroupModalOpen sb)
             v.

(** The requests and the alert of [createGroup]. *)
Inductive GroupEffect :=
| InsertGroup (name : string)
| InsertGroupMember (member : GroupMember.t)
| GroupAlert (text : string).

(** *** [fetchData] *)


(** The two state updates of [fetchData]: [if (userData) setUsers(userData)]
    and [if (groupData) setGroups(groupData)]. *)
Definition fetchData (userData : option (list User.t))
    (groupData : option (list Group.t)) (sb : Sidebar.t) : Sidebar.t :=
  let sb := match userData with
            | Some rows => setUsers rows sb
            | None => sb
            end in
  match groupData with
  | Some rows => setGroups rows sb
  | None => sb
  end.

(** *** [activeChatInfo] *)

(** What the header shows: a user row or a group row. *)
Inductive ChatInfo :=
| UserInfo (u : User.t)
| GroupInfo (g : Group.t).

(** [activeChat?.type === 'user' ? users.find(u => u.id === activeChat.id)
    : groups.find(g => g.id === activeChat.id)], computed in every render
    of a logged-in session.  Without an active chat the test is false and
    the callback of [groups.find] reads [activeChat.id] of null: it throws
    on the first group it is called on, and is not called on an empty
    list. *)
Definition activeChatInfo (activeChat : option ActiveChat.t)
    (users : list User.t) (groups : list Group.t)
    : string + option ChatInfo :=
  match activeChat with
  | Some c =>
      inr (match ActiveChat.type c with
           | user =>
               UserInfo
                 <$> find (λ u, bool_decide (User.id u = ActiveChat.id c))
                          users
           | group =>
               GroupInfo
                 <$> find (λ g, bool_decide (Group.id g = ActiveChat.id c))
                          groups
           end)
  | None =>
      match groups with
      | [] => inr None
      | _ :: _ => inl "TypeError"
      end
  end.

(** ** The backend client (lib/supabase) *)

(** A client, as far as this model needs it: the url and the key it was
    made for. *)
Module SupabaseClient.
Record t := mk {
  supabaseUrl : string;
  supabaseKey : string
}.
End SupabaseClient.

(** ** The stored user *)

(** [localStorage], holding under each key the user whose JSON text was
    stored there, and the effect of a handler's trace on it. *)
Definition localStorage_apply (storage : gmap string User.t) (e : Effect)
    : gmap string User.t :=
  match e with
  | LocalStorageSetItem key value => <[key := value]> storage
  | LocalStorageRemoveItem key => delete key storage
  | _ => storage
  end.

Definition localStorage_after (effects : list Effect)
    (storage : gmap string User.t) : gmap string User.t :=
  foldl localStorage_apply storage effects.

(** The mount effect "Check for stored user". *)
Definition restoreUser (storage : gmap string User.t) (st : App.t) : App.t :=
  match storage !! "chat_user" with
  | Some storedUser => setCurrentUser (Some storedUser) st
  | None => st
  end.

(** ** Counting deliveries *)

(** The three tests of the global callback passed by [msg], and [msg]
    filed under [key]. *)
Definition counted (currentUser : User.t) (activeChat : option ActiveChat.t)
    (key : string) (msg : Message.t) : bool :=
  negb (bool_decide (Message.sender_id msg = User.id currentUser))
  && negb (is_active_chat activeChat (chatId msg))
  && isRelevant currentUser msg
  && bool_decide (chatId msg = key).

Definition unread_received (currentUser : User.t)
    (activeChat : option ActiveChat.t) (key : string)
    (msgs : list Message.t) : nat :=
  length (List.filter (counted currentUser activeChat key) msgs).

(** A row of the messages table has exactly one of [receiver_id] and
    [group_id]. *)
Definition exactly_one_target (row : Message.t) : Prop :=
  (is_Some (Message.receiver_id row) ∧ Message.group_id row = None)
  ∨ (Message.receiver_id row = None ∧ is_Some (Message.group_id row)).

(** ** A table as the inserts that built it *)

(** The table after a sequence of insert requests, each with the id and
    the stamp the database gives it; a rejected insert leaves the table
    as it is. *)
Definition insert_all (inserts : list (string * string * MessageData.t))
    (rows : list Message.t) : list Message.t :=
  foldl (λ rows '(id, created_at, messageData),
           match insert_message id created_at messageData rows with
           | inl rows' => rows'
           | inr _ => rows
           end)
        rows inserts.

(** ** A session: the hooks, the subscriptions and the pending lookups *)

Module Session.
(** [hooks] are the values of the latest render.  [globalSub] and
    [chatSub] are the values the callbacks of the two subscriptions close
    over, those of the render whose effects subscribed them, [None]
    while there is no subscription.  [activationDue] says that
    [activeChat] was set in a render whose effects have not run yet.
    [awaiting] are the rows the chat callback accepted and whose sender
    lookup has not answered. *)
Record t := mk {
  hooks : App.t;
  globalSub : option (User.t * option ActiveChat.t);
  chatSub : option (User.t * ActiveChat.t);
  activationDue : bool;
  awaiting : list Message.t
}.

Definition initial : t := mk App.initial None None false [].
End Session.

(** A state update of a handler or of a callback. *)
Definition update_hooks (f : App.t → App.t) (s : Session.t) : Session.t :=
  Session.mk (f (Session.hooks s)) (Session.globalSub s) (Session.chatSub s)
             (Session.activationDue s) (Session.awaiting s).

(** A call of [setActiveChat]: the effects that depend on [activeChat] are
    due after the render. *)
Definition update_activeChat (f : App.t → App.t) (s : Session.t)
    : Session.t :=
  Session.mk (f (Session.hooks s)) (Session.globalSub s) (Session.chatSub s)
             true (Session.awaiting s).

(** The test at the head of the chat callback: [false] is its early
    return, [true] lets it go on to the sender lookup. *)
Definition chat_callback_accepts (currentUser : User.t)
    (activeChat : ActiveChat.t) (newMessage : Message.t) : bool :=
  negb (bool_decide (ActiveChat.type activeChat = user)
        && negb (isRelevantDirect currentUser activeChat newMessage)).

(** ** Sample data *)

(** A trim that strips the ASCII white space of [String.prototype.trim]
    (tab, line feed, vertical tab, form feed, carriage return, space); the
    handlers are modelled for any trim, and the examples are run with this
    one. *)
Fixpoint trim_start (s : string) : string :=
  match s with
  | String c s' => if Ascii.is_space c then trim_start s' else s
  | EmptyString => EmptyString
  end.

Definition ascii_trim (s : string) : string :=
  String.rev (trim_start (String.rev (trim_start s))).

Module Sample.
Definition alice : User.t := User.mk "u-alice" "alice" None.
Definition bob : User.t := User.mk "u-bob" "bob" None.
Definition carol : User.t := User.mk "u-carol" "carol" None.
Definition users : list User.t := [alice; bob; carol].

Definition chat_with_alice : ActiveChat.t := ActiveChat.mk user "u-alice".
Definition chat_with_carol : ActiveChat.t := ActiveChat.mk user "u-carol".
Definition chat_team : ActiveChat.t := ActiveChat.mk group "g-team".

(** Rows as the change feed delivers them: no [sender] join. *)
Definition direct (id from to content created_at : string) : Message.t :=
  Message.mk id from (Some to) None content created_at None.
Definition post (id from to content created_at : string) : Message.t :=
  Message.mk id from None (Some to) content created_at None.

Definition d1 := direct "m1" "u-alice" "u-bob" "hi" "2024-05-01T10:00:00Z".
Definition d2 := direct "m2" "u-alice" "u-bob" "hello?" "2024-05-01T10:00:05Z".
Definition d3 := direct "m3" "u-alice" "u-bob" "ping" "2024-05-01T10:00:09Z".
Definition d4 := direct "m4" "u-carol" "u-bob" "lunch" "2024-05-01T10:05:00Z".
Definition p1 := post "m5" "u-alice" "g-team" "standup" "2024-05-01T10:06:00Z".
Definition reply := direct "m6" "u-bob" "u-alice" "here" "2024-05-01T10:04:00Z".

(** Bob, logged in, viewing his chat with Carol, nothing unread. *)
Definition bob_views_carol : App.t :=
  App.mk (Some bob) "" false (Some chat_with_carol) {["u-carol" := 0]} [] "".

(** Bob composing a reply in his chat with Alice, and the state and the
    request once he submits it. *)
Definition bob_composing : App.t :=
  App.mk (Some bob) "" false (Some chat_with_alice) {["u-alice" := 0]} []
         "  here ".
Definition bob_sent : App.t :=
  App.mk (Some bob) "" false (Some chat_with_alice) {["u-alice" := 0]} [] "".
Definition reply_data : MessageData.t :=
  MessageData.mk "u-bob" "here" (Some "u-alice") None.

(** The login form filled in. *)
Definition login_form : App.t :=
  App.mk None " alice " false None ∅ [] "".

(** Two groups and a second post to the first. *)
Definition team : Group.t := Group.mk "g-team" "team" "2024-04-01T09:00:00Z".
Definition ops : Group.t := Group.mk "g-ops" "ops" "2024-04-02T09:00:00Z".
Definition p2 := post "m7" "u-carol" "g-team" "ok" "2024-05-01T10:07:00Z".

(** A row with both targets set, which the schema does not exclude. *)
Definition both_targets : Message.t :=
  Message.mk "m8" "u-alice" (Some "u-bob") (Some "g-team") "hi"
             "2024-05-01T10:08:00Z" None.

(** Alice, logged in, with nothing open. *)
Definition alice_idle : App.t :=
  App.mk (Some alice) "" false None ∅ [] "".

(** Bob with his chat with Alice open and its history, one row, loaded. *)
Definition bob_reading : App.t :=
  App.mk (Some bob) "" false (Some chat_with_alice) {["u-alice" := 0]}
         [with_sender d1 (Some alice)] "".

(** Bob naming a new group. *)
Definition naming_group : Sidebar.t :=
  Sidebar.mk Tab.groups [alice; carol] [team] false true " ops ".

(** Sessions whose effects have run: Bob reading his chat with Alice, Bob
    composing in it, Alice with nothing open. *)
Definition bob_reading_session : Session.t :=
  Session.mk bob_reading (Some (bob, Some chat_with_alice))
             (Some (bob, chat_with_alice)) false [].
Definition bob_composing_session : Session.t :=
  Session.mk bob_composing (Some (bob, Some chat_with_alice))
             (Some (bob, chat_with_alice)) false [].
Definition alice_idle_session : Session.t :=
  Session.mk alice_idle (Some (alice, None)) None false [].

(** Bob's reply when the database stamps it earlier than the row that is
    already there. *)
Definition early_reply :=
  direct "m6" "u-bob" "u-alice" "here" "2024-05-01T09:00:00Z".

(** The client of a configured deployment. *)
Definition client : SupabaseClient.t :=
  SupabaseClient.mk "https://bchat.supabase.co" "anon-key".

(** Alice with a group open whose id is Bob's user id. *)
Definition alice_in_group_named_bob : Session.t :=
  Session.mk
    (App.mk (Some alice) "" false (Some (ActiveChat.mk group "u-bob"))
            {["u-bob" := 0]} [] "")
    (Some (alice, Some (ActiveChat.mk group "u-bob")))
    (Some (alice, ActiveChat.mk group "u-bob")) false [].

(** A [createClient] that refuses what is not an http url. *)
Definition create_client (url key : string)
    : string + SupabaseClient.t :=
  if String.prefix "http" url then inr (SupabaseClient.mk url key)
  else inl "Invalid supabaseUrl".
End Sample.

Section Client.

(** [String.prototype.trim], a built-in the handlers call. *)
Variable trim : string → string.

(** [createClient] of the backend's library: the client, or the error it
    throws. *)
Variable createClient : string → string → string + SupabaseClient.t.

(** The order of the database on the values of the [created_at] column. *)
Variable created_le : string → string → bool.

(** It is a total preorder. *)
Hypothesis created_le_total :
  ∀ a b, created_le a b = true ∨ created_le b a = true.
Hypothesis created_le_trans :
  ∀ a b c, created_le a b = true → created_le b c = true →
           created_le a c = true.

(** *** [order('created_at', { ascending: true })] *)

(** Modelled from the spec: "Ordering is by created_at ascending; ties
    broken by insertion order", that is a stable sort of the selected
    rows. *)
Fixpoint insert_by_created_at (row : Message.t) (sorted : list Message.t)
    : list Message.t :=
  match sorted with
  | [] => [row]
  | r :: rs =>
      if created_le (Message.created_at row) (Message.created_at r)
      then row :: r :: rs
      else r :: insert_by_created_at row rs
  end.

Definition order_by_created_at (rows : list Message.t) : list Message.t :=
  foldr insert_by_created_at [] rows.

(** Every row is at most as late as every row after it. *)
Fixpoint chronological (rows : list Message.t) : bool :=
  match rows with
  | [] => true
  | r :: rs =>
      forallb (λ r', created_le (Message.created_at r)
                                (Message.created_at r')) rs
      && chronological rs
  end.

(** The query built by [fetchMessages], evaluated on the tables:
    the select with its [sender] join, the filter of the chat type, then
    the order. *)
Definition history_query (currentUser : User.t) (activeChat : ActiveChat.t)
    (users : list User.t) (rows : list Message.t) : list Message.t :=
  order_by_created_at
    (join_sender users
       <$> List.filter (history_filter currentUser activeChat) rows).

(** *** The module lib/supabase *)

(** The module body: the two environment variables with their [|| '']
    defaults, the error logged when one is missing, and the exported
    [supabase]: null unless both are there, else what [createClient]
    returns.  When [createClient] throws, the module throws ([inl]) after
    what it has logged. *)
Definition supabase_module (VITE_SUPABASE_URL VITE_SUPABASE_ANON_KEY
    : option string) : list Effect * (string + option SupabaseClient.t) :=
  let supabaseUrl := or_else VITE_SUPABASE_URL "" in
  let supabaseAnonKey := or_else VITE_SUPABASE_ANON_KEY "" in
  (if bool_decide (supabaseUrl = "") || bool_decide (supabaseAnonKey = "")
   then [ConsoleError "Supabase credentials missing. Please set VITE_SUPABASE_URL and VITE_SUPABASE_ANON_KEY in your environment."]
   else [],
   if negb (bool_decide (supabaseUrl = ""))
      && negb (bool_decide (supabaseAnonKey = ""))
   then match createClient supabaseUrl supabaseAnonKey with
        | inl error => inl error
        | inr client => inr (Some client)
        end
   else inr None).

(** *** [handleLogin] *)

(** [supabase] is the export of lib/supabase.  When it is null,
    [supabase.from] throws inside the [try]: nothing is requested and the
    [catch] reports.  Otherwise [lookup] and [created] are the answers of
    the select and of the insert; the second is read only when the insert
    is issued. *)
Definition handleLogin (supabase : option SupabaseClient.t)
    (lookup created : Response.t User.t) (st : App.t)
    : App.t * list Effect :=
  let username := trim (App.usernameInput st) in
  if bool_decide (username = "") then (st, [])
  else
    let st := setIsLoggingIn true st in
    match supabase with
    | None =>
        (setIsLoggingIn false st,
         [ConsoleError "Login error:";
          Alert "Failed to login. Make sure Supabase is configured."])
    | Some _ =>
        match Response.data lookup with
        | Some existingUser =>
            (setIsLoggingIn false (setCurrentUser (Some existingUser) st),
             [SelectUserByUsername username;
              LocalStorageSetItem "chat_user" existingUser])
        | None =>
            match Response.error created, Response.data created with
            | Some _, _ =>
                (setIsLoggingIn false st,
                 [SelectUserByUsername username; InsertUser username;
                  ConsoleError "Login error:";
                  Alert "Failed to login. Make sure Supabase is configured."])
            | None, Some newUser =>
                (setIsLoggingIn false (setCurrentUser (Some newUser) st),
                 [SelectUserByUsername username; InsertUser username;
                  LocalStorageSetItem "chat_user" newUser])
            | None, None =>
                (setIsLoggingIn false st,
                 [SelectUserByUsername username; InsertUser username])
            end
        end
    end.

(** *** [handleLogout] *)

Definition handleLogout (st : App.t) : App.t * list Effect :=
  (setActiveChat None (setCurrentUser None st),
   [LocalStorageRemoveItem "chat_user"]).

(** *** [sendMessage] *)

(** The guard of [sendMessage] and the [messageData] it builds when the
    guard lets it through. *)
Definition messageData_of (st : App.t) : option MessageData.t :=
  if bool_decide (trim (App.newMessage st) = "") then None
  else
    match App.currentUser st, App.activeChat st with
    | Some currentUser, Some activeChat =>
        Some (match ActiveChat.type activeChat with
              | user =>
                  MessageData.mk (User.id currentUser)
                    (trim (App.newMessage st))
                    (Some (ActiveChat.id activeChat)) None
              | group =>
                  MessageData.mk (User.id currentUser)
                    (trim (App.newMessage st))
                    None (Some (ActiveChat.id activeChat))
              end)
    | _, _ => None
    end.

(** [error] is the [error] field of the answer the client gives to the
    insert. *)
Definition sendMessage (error : option string) (st : App.t)
    : App.t * list Effect :=
  match messageData_of st with
  | None => (st, [])
  | Some messageData =>
      (setNewMessage "" st,
       InsertMessage messageData ::
       match error with
       | Some _ => [ConsoleError "Send error:";
                    Alert "Failed to send message"]
       | None => []
       end)
  end.

(** [sendMessage] run against the messages table: the insert it issues
    is performed by the store, whose answer it receives. *)
Definition send_to_store (id created_at : string) (st : App.t)
    (rows : list Message.t) : App.t * list Effect * list Message.t :=
  match messageData_of st with
  | None => (sendMessage None st, rows)
  | Some messageData =>
      match insert_message id created_at messageData rows with
      | inl rows' => (sendMessage None st, rows')
      | inr error => (sendMessage (Some error) st, rows)
      end
  end.

(** *** The session as a transition system *)

(** The body of the effect "Clear unread count when chat becomes active",
    which React runs after a render in which [activeChat] changed. *)
Definition activation_effect (st : App.t) : App.t :=
  match App.activeChat st with
  | Some activeChat =>
      setUnreadCounts (onConversationActivated (ActiveChat.id activeChat))
                      st
  | None => st
  end.

(** The effects React runs after a render, in the order of the source:
    the activation effect when [activeChat] was set, then the global
    subscription and the chat subscription, each unsubscribed and made
    anew with the values of that render when those it needs are there. *)
Definition run_effects (s : Session.t) : Session.t :=
  let hooks := if Session.activationDue s
               then activation_effect (Session.hooks s)
               else Session.hooks s in
  Session.mk hooks
    (match App.currentUser hooks with
     | Some currentUser => Some (currentUser, App.activeChat hooks)
     | None => None
     end)
    (match App.currentUser hooks, App.activeChat hooks with
     | Some currentUser, Some activeChat => Some (currentUser, activeChat)
     | _, _ => None
     end)
    false (Session.awaiting s).

(** What can happen to a session that has a client.  The two inputs
    change; the mount effect finds a stored user; the login form is
    submitted; the logout button is clicked; a chat is chosen
    ([setActiveChat] from the two lists and from [createGroup]); the
    compose form is submitted; the history query answers; React runs the
    effects of the renders since the last run; the feed delivers an
    inserted row to the global subscription, or to the chat
    subscription; the sender lookup of the [n]-th awaited row answers. *)
Inductive Event :=
| UsernameInputChanged (value : string)
| NewMessageChanged (value : string)
| StoredUserFound (storedUser : User.t)
| LoginSubmitted (client : SupabaseClient.t)
                 (lookup created : Response.t User.t)
| LogoutClicked
| ChatSelected (chat : ActiveChat.t)
| MessageSubmitted (error : option string)
| HistoryFetched (data : option (list Message.t))
| EffectsRun
| GlobalInsert (row : Message.t)
| ChatInsert (row : Message.t)
| SenderResolved (n : nat) (lookup : Response.t User.t).

(** One step.  A handler updates the hooks and no more: the effects of
    the render it causes are an event of their own, and until they run
    the two callbacks are those of an earlier render.  The global
    callback updates the unread map with the values it closes over.  The
    chat callback tests the row with the values it closes over and, when
    the row passes, awaits the sender lookup; when the lookup answers,
    the row is added to the list as it then is. *)
Definition step (s : Session.t) (e : Event) : Session.t :=
  match e with
  | UsernameInputChanged value => update_hooks (setUsernameInput value) s
  | NewMessageChanged value => update_hooks (setNewMessage value) s
  | StoredUserFound storedUser =>
      update_hooks (setCurrentUser (Some storedUser)) s
  | LoginSubmitted client lookup created =>
      update_hooks (λ st, (handleLogin (Some client) lookup created st).1) s
  | LogoutClicked => update_activeChat (λ st, (handleLogout st).1) s
  | ChatSelected chat => update_activeChat (setActiveChat (Some chat)) s
  | MessageSubmitted error => update_hooks (λ st, (sendMessage error st).1) s
  | HistoryFetched data => update_hooks (fetchMessages data) s
  | EffectsRun => run_effects s
  | GlobalInsert row =>
      match Session.globalSub s with
      | Some (currentUser, activeChat) =>
          update_hooks
            (setUnreadCounts (onMessageObserved currentUser activeChat row)) s
      | None => s
      end
  | ChatInsert row =>
      match Session.chatSub s with
      | Some (currentUser, activeChat) =>
          if chat_feed_filter activeChat row
             && chat_callback_accepts currentUser activeChat row
          then Session.mk (Session.hooks s) (Session.globalSub s)
                          (Session.chatSub s) (Session.activationDue s)
                          (Session.awaiting s ++ [row])
          else s
      | None => s
      end
  | SenderResolved n lookup =>
      match Session.awaiting s !! n with
      | Some row =>
          Session.mk
            (setMessages
               (App.messages (Session.hooks s)
                ++ [with_sender row (Response.data lookup)])
               (Session.hooks s))
            (Session.globalSub s) (Session.chatSub s)
            (Session.activationDue s) (delete n (Session.awaiting s))
      | None => s
      end
  end.

Definition run (s : Session.t) (events : list Event) : Session.t :=
  foldl step s events.

(** The states a session can be in. *)
Definition reachable (s : Session.t) : Prop :=
  ∃ events, s = run Session.initial events.

(** *** [createGroup] *)

(** [created] is the answer of the insert into [groups]; the answer of
    the insert into [group_members] is awaited and not read. *)
Definition createGroup (created : Response.t Group.t) (st : App.t)
    (sb : Sidebar.t) : App.t * Sidebar.t * list GroupEffect :=
  let name := trim (Sidebar.newGroupName sb) in
  if bool_decide (name = "") then (st, sb, [])
  else
    match App.currentUser st with
    | None => (st, sb, [])
    | Some currentUser =>
        match Response.error created, Response.data created with
        | Some _, _ =>
            (st, sb, [InsertGroup name; GroupAlert "Failed to create group"])
        | None, Some group_row =>
            (setActiveChat (Some (ActiveChat.mk group (Group.id group_row)))
                           st,
             setNewGroupName ""
               (setIsNewGroupModalOpen false
                  (setGroups (Sidebar.groups sb ++ [group_row]) sb)),
             [InsertGroup name;
              InsertGroupMember
                (GroupMember.mk (Group.id group_row) (User.id currentUser))])
        | None, None => (st, sb, [InsertGroup name])
        end
    end.

(** *** Conditions of the specification, stated as propositions *)

(** An observed message counts as unread for observer [u] with active
    conversation [a]: it is not authored by [u], it is relevant, and its
    conversation is not the active one. *)
Definition counts_as_unread (u : User.t) (a : option ActiveChat.t)
    (m : Message.t) : Prop :=
  Message.sender_id m ≠ User.id u
  ∧ (present (Message.group_id m)
     ∨ Message.receiver_id m = Some (User.id u))
  ∧ (∀ c, a = Some c → ActiveChat.id c ≠ chatId m).

(** The bidirectional pair predicate of a direct conversation between
    observer [u] and target [t]. *)
Definition pair_predicate (u t : string) (m : Message.t) : Prop :=
  (Message.sender_id m = u ∧ Message.receiver_id m = Some t)
  ∨ (Message.sender_id m = t ∧ Message.receiver_id m = Some u).

(** The chat [chat] open in the session of [viewer] shows the conversation
    that [u] has open as [c]: for a direct conversation, [u]'s own chat
    with the partner or the partner's chat with [u]; for a group, the
    group. *)
Definition views_conversation (u : User.t) (c : ActiveChat.t)
    (viewer : User.t) (chat : ActiveChat.t) : Prop :=
  ActiveChat.type chat = ActiveChat.type c
  ∧ match ActiveChat.type c with
    | user =>
        (User.id viewer = User.id u ∧ ActiveChat.id chat = ActiveChat.id c)
        ∨ (User.id viewer = ActiveChat.id c
           ∧ ActiveChat.id chat = User.id u)
    | group => ActiveChat.id chat = ActiveChat.id c
    end.

(** A direct message from [A] to [B]. *)
Definition direct_from_to (A B : string) (m : Message.t) : Prop :=
  Message.sender_id m = A
  ∧ Message.receiver_id m = Some B
  ∧ Message.group_id m = None.

(** The session invariant.  Once the effects of the latest selection
    have run, the count stored for the active conversation is 0 and the
    global callback closes over that conversation. *)
Definition settled_active_is_read (s : Session.t) : Prop :=
  Session.activationDue s = false →
  ∀ c, App.activeChat (Session.hooks s) = Some c →
       App.unreadCounts (Session.hooks s) !! ActiveChat.id c = Some 0
       ∧ ∀ u a, Session.globalSub s = Some (u, a) → a = Some c.

(** The two callbacks close over the values of one render. *)
Definition subs_of_one_render (s : Session.t) : Prop :=
  ∀ u c, Session.chatSub s = Some (u, c) →
         Session.globalSub s = Some (u, Some c).

(** ** Facts about the JavaScript operators *)

Lemma truthy_present o : truthy o = true ↔ present o.
Proof.
  unfold present. destruct o as [s|]; simpl.
  - rewrite negb_true_iff, bool_decide_eq_false. split.
    + intros Hs. by exists s.
    + intros (s' & [= <-] & Hs). done.
  - split; [done | by intros (s & ? & _)].
Qed.

Lemma or_else_present o d s : o = Some s → s ≠ "" → or_else o d = s.
Proof. intros -> Hs. simpl. by rewrite bool_decide_eq_false_2. Qed.

Lemma or_else_absent o d : ¬ present o → or_else o d = d.
Proof.
  intros Hn. destruct o as [s|]; simpl; [|done].
  case_bool_decide; [done|]. destruct Hn. by exists s.
Qed.

Lemma strict_eq_true o s : strict_eq o s = true ↔ o = Some s.
Proof. unfold strict_eq. apply bool_decide_eq_true. Qed.

Lemma isRelevant_spec u m :
  isRelevant u m = true
  ↔ present (Message.group_id m)
    ∨ Message.receiver_id m = Some (User.id u).
Proof.
  unfold isRelevant.
  by rewrite orb_true_iff, truthy_present, strict_eq_true.
Qed.

Lemma is_active_chat_false a k :
  is_active_chat a k = false ↔ ∀ c, a = Some c → ActiveChat.id c ≠ k.
Proof.
  destruct a as [c|]; simpl.
  - rewrite bool_decide_eq_false. split.
    + by intros Hne c' [= <-].
    + intros H. by apply H.
  - split; [by intros _ c [=] | done].
Qed.

(** ** The unread tracker *)

Lemma count_of_insert k v (counts : gmap string nat) :
  count_of (<[k := v]> counts) k = v.
Proof. unfold count_of. by rewrite lookup_insert_eq. Qed.

Lemma count_of_insert_ne k k' v (counts : gmap string nat) :
  k ≠ k' → count_of (<[k := v]> counts) k' = count_of counts k'.
Proof. intros Hne. unfold count_of. by rewrite lookup_insert_ne. Qed.

Lemma onMessageObserved_counts u a m prev :
  counts_as_unread u a m →
  onMessageObserved u a m prev
  = <[chatId m := count_of prev (chatId m) + 1]> prev.
Proof.
  intros (Hsender & Hrel & Hact). unfold onMessageObserved.
  rewrite bool_decide_eq_false_2 by done.
  apply is_active_chat_false in Hact. simpl. rewrite Hact.
  apply isRelevant_spec in Hrel. by rewrite Hrel.
Qed.

Lemma onMessageObserved_skips u a m prev :
  ¬ counts_as_unread u a m → onMessageObserved u a m prev = prev.
Proof.
  intros Hn. unfold onMessageObserved.
  case_bool_decide as Hsender; [done|]. simpl.
  destruct (is_active_chat a (chatId m)) eqn:Hact; [done|].
  destruct (isRelevant u m) eqn:Hrel; [|done].
  destruct Hn. split; [done|]. split.
  - by apply isRelevant_spec.
  - by apply is_active_chat_false.
Qed.

Lemma onMessageObserved_changed u a m prev :
  onMessageObserved u a m prev ≠ prev → counts_as_unread u a m.
Proof.
  unfold onMessageObserved. intros Hne.
  case_bool_decide as Hsender; [done|]. simpl in Hne.
  destruct (is_active_chat a (chatId m)) eqn:Hact; [done|].
  destruct (isRelevant u m) eqn:Hrel; [|done].
  split; [done|]. split.
  - by apply isRelevant_spec.
  - by apply is_active_chat_false.
Qed.

Lemma increment_changes k (prev : gmap string nat) :
  <[k := count_of prev k + 1]> prev ≠ prev.
Proof.
  intros Heq. assert (count_of (<[k := count_of prev k + 1]> prev) k
                      = count_of prev k) as H by by rewrite Heq.
  rewrite count_of_insert in H. lia.
Qed.

Lemma onMessageObserved_active u (c : ActiveChat.t) m prev :
  ActiveChat.id c = chatId m → onMessageObserved u (Some c) m prev = prev.
Proof.
  intros Hid. unfold onMessageObserved. case_bool_decide; [done|].
  simpl. by rewrite bool_decide_eq_true_2.
Qed.

Lemma onMessageObserved_own u a m prev :
  Message.sender_id m = User.id u → onMessageObserved u a m prev = prev.
Proof.
  intros Hid. unfold onMessageObserved. by rewrite bool_decide_eq_true_2.
Qed.

Lemma onMessageObserved_other_key u a m prev k :
  k ≠ chatId m → onMessageObserved u a m prev !! k = prev !! k.
Proof.
  intros Hne. unfold onMessageObserved.
  repeat (case_match; try done). by rewrite lookup_insert_ne.
Qed.

(** Direct messages from [A] to the observer, none of them for the active
    conversation: each adds one to the count kept for [A]. *)
Lemma observe_all_direct (B : User.t) (C : ActiveChat.t) (A : string)
    msgs counts :
  Forall (direct_from_to A (User.id B)) msgs →
  A ≠ User.id B → ActiveChat.id C ≠ A →
  count_of (observe_all B (Some C) msgs counts) A
  = count_of counts A + length msgs
  ∧ ∀ k, k ≠ A →
      observe_all B (Some C) msgs counts !! k = counts !! k.
Proof.
  intros Hall HAB HCA. revert counts.
  induction Hall as [|m msgs (Hs & Hr & Hg) _ IH]; intros counts.
  - simpl. split; [lia | done].
  - assert (chatId m = A) as Hchat.
    { unfold chatId. rewrite Hg. done. }
    assert (counts_as_unread B (Some C) m) as Hcount.
    { split; [by rewrite Hs|]. split; [by right|].
      intros c [= <-]. by rewrite Hchat. }
    unfold observe_all in *. simpl.
    rewrite (onMessageObserved_counts _ _ _ _ Hcount), Hchat.
    destruct (IH (<[A := count_of counts A + 1]> counts)) as [IH1 IH2].
    split.
    + rewrite IH1, count_of_insert. lia.
    + intros k Hk. rewrite IH2 by done. by rewrite lookup_insert_ne.
Qed.

(** C1: the global unread handler adds exactly one to the count of the
    derived conversation id (the group id when present, else the sender
    id), creating the entry when it is missing, if and only if the
    message is not authored by the observer, is relevant, and its
    conversation is not the active one; otherwise the map is unchanged.
    Three direct messages from A to B while B views another conversation
    C leave B's count for A at 3 and B's count for C at 0. *)
Theorem C1_unread_increment_iff :
  (∀ u a m prev,
     let next := onMessageObserved u a m prev in
     (∀ g, Message.group_id m = Some g → g ≠ "" → chatId m = g)
     ∧ (¬ present (Message.group_id m) → chatId m = Message.sender_id m)
     ∧ (counts_as_unread u a m ↔ next ≠ prev)
     ∧ (counts_as_unread u a m →
        next !! chatId m = Some (count_of prev (chatId m) + 1)
        ∧ ∀ k, k ≠ chatId m → next !! k = prev !! k)
     ∧ (¬ counts_as_unread u a m → next = prev))
  ∧ (∀ (B : User.t) (C : ActiveChat.t) (A : string) m1 m2 m3 counts,
       direct_from_to A (User.id B) m1 →
       direct_from_to A (User.id B) m2 →
       direct_from_to A (User.id B) m3 →
       A ≠ User.id B → ActiveChat.id C ≠ A →
       count_of counts A = 0 → count_of counts (ActiveChat.id C) = 0 →
       let counts' := observe_all B (Some C) [m1; m2; m3] counts in
       count_of counts' A = 3 ∧ count_of counts' (ActiveChat.id C) = 0).
Proof.
  split.
  - intros u a m prev next. subst next.
    split; [intros g Hg Hne; by apply or_else_present|].
    split; [apply or_else_absent|].
    split; [|split].
    + split.
      * intros Hc. rewrite (onMessageObserved_counts _ _ _ _ Hc).
        apply increment_changes.
      * apply onMessageObserved_changed.
    + intros Hc. rewrite (onMessageObserved_counts _ _ _ _ Hc). split.
      * apply lookup_insert_eq.
      * intros k Hk. by rewrite lookup_insert_ne.
    + apply onMessageObserved_skips.
  - intros B C A m1 m2 m3 counts H1 H2 H3 HAB HCA HA HC counts'.
    destruct (observe_all_direct B C A [m1; m2; m3] counts) as [Hn Ho];
      [by repeat apply Forall_cons_2; try apply Forall_nil_2
      | done | done |].
    subst counts'. split.
    + rewrite Hn, HA. done.
    + unfold count_of in *. by rewrite Ho.
Qed.

Lemma onMessageObserved_active_key u (c : ActiveChat.t) m prev :
  onMessageObserved u (Some c) m prev !! ActiveChat.id c
  = prev !! ActiveChat.id c.
Proof.
  destruct (decide (ActiveChat.id c = chatId m)) as [Heq|Hne].
  - by rewrite onMessageObserved_active.
  - by apply onMessageObserved_other_key.
Qed.

Lemma onConversationActivated_lookup c prev :
  onConversationActivated c prev !! c = Some 0.
Proof. apply lookup_insert_eq. Qed.


(** ** The session invariant *)

Lemma handleLogin_keeps supabase lookup created st :
  App.activeChat (handleLogin supabase lookup created st).1
  = App.activeChat st
  ∧ App.unreadCounts (handleLogin supabase lookup created st).1
    = App.unreadCounts st.
Proof. unfold handleLogin. by repeat case_match. Qed.

Lemma sendMessage_keeps error st :
  App.activeChat (sendMessage error st).1 = App.activeChat st
  ∧ App.unreadCounts (sendMessage error st).1 = App.unreadCounts st.
Proof. unfold sendMessage. by repeat case_match. Qed.

Lemma update_hooks_settled f s :
  (∀ st, App.activeChat (f st) = App.activeChat st
         ∧ App.unreadCounts (f st) = App.unreadCounts st) →
  settled_active_is_read s → settled_active_is_read (update_hooks f s).
Proof.
  intros Hf Hinv Hdue c. simpl in *.
  destruct (Hf (Session.hooks s)) as [-> ->]. by apply Hinv.
Qed.

Lemma run_effects_settled s :
  settled_active_is_read s → settled_active_is_read (run_effects s).
Proof.
  intros Hinv _ c. unfold run_effects. simpl.
  destruct (Session.activationDue s) eqn:Hdue.
  - unfold activation_effect.
    destruct (App.activeChat (Session.hooks s)) as [c'|] eqn:Ha; simpl;
      rewrite Ha; [|done].
    intros [= <-]. split; [apply onConversationActivated_lookup|].
    destruct (App.currentUser (Session.hooks s)); [|done].
    by intros u a [= _ <-].
  - intros Hc. destruct (Hinv Hdue c Hc) as [Hzero _]. split; [done|].
    destruct (App.currentUser (Session.hooks s)); [|done].
    intros u a [= _ <-]. done.
Qed.

Lemma step_settled_active_is_read s e :
  settled_active_is_read s → settled_active_is_read (step s e).
Proof.
  intros Hinv. destruct e; simpl.
  - by apply update_hooks_settled.
  - by apply update_hooks_settled.
  - by apply update_hooks_settled.
  - apply update_hooks_settled; [|done]. intros st.
    apply handleLogin_keeps.
  - by intros [=].
  - by intros [=].
  - apply update_hooks_settled; [|done]. intros st. apply sendMessage_keeps.
  - apply update_hooks_settled; [|done]. intros st. by destruct data.
  - by apply run_effects_settled.
  - destruct (Session.globalSub s) as [[u a]|] eqn:Hsub; [|done].
    intros Hdue c Hc. simpl in *.
    destruct (Hinv Hdue c Hc) as [Hzero Hclosure].
    rewrite (Hclosure u a Hsub), onMessageObserved_active_key.
    split; [done|]. intros u' a' Hsub'. apply (Hclosure u' a').
    congruence.
  - destruct (Session.chatSub s) as [[u c']|]; [|done].
    by case_match.
  - destruct (Session.awaiting s !! n); [|done].
    intros Hdue c Hc. by apply Hinv.
Qed.

Lemma run_settled_active_is_read s events :
  settled_active_is_read s → settled_active_is_read (run s events).
Proof.
  revert s. induction events as [|e events IH]; intros s Hinv; [done|].
  simpl. by apply IH, step_settled_active_is_read.
Qed.

Lemma reachable_settled_active_is_read s :
  reachable s → settled_active_is_read s.
Proof.
  intros [events ->]. apply run_settled_active_is_read.
  by intros _ c.
Qed.

Lemma reachable_run s events : reachable s → reachable (run s events).
Proof.
  intros [events0 ->]. exists (events0 ++ events).
  unfold run. by rewrite foldl_app.
Qed.

Lemma run_GlobalInsert_keeps s rows :
  App.activeChat (Session.hooks (run s (GlobalInsert <$> rows)))
  = App.activeChat (Session.hooks s)
  ∧ Session.activationDue (run s (GlobalInsert <$> rows))
    = Session.activationDue s.
Proof.
  revert s. induction rows as [|row rows IH]; intros s; [done|].
  change (run s (GlobalInsert <$> row :: rows))
    with (run (step s (GlobalInsert row)) (GlobalInsert <$> rows)).
  destruct (IH (step s (GlobalInsert row))) as [-> ->]. simpl.
  by destruct (Session.globalSub s) as [[u a]|].
Qed.

(** C2 (amended): selecting a conversation makes it active in a render in
    which its former count is still stored; the count is set to 0 by
    the effect that runs after that render, whatever rows the global
    callback, still that of the render before, observed in between.  In
    every reachable state whose effects have run since the last selection
    the count stored for the active conversation is 0, and any sequence
    of observed rows leaves the conversation active and its count at
    0. *)
Theorem C2_count_zero_once_effect_ran :
  (∀ s c,
     reachable s → Session.activationDue s = false →
     App.activeChat (Session.hooks s) = Some c →
     App.unreadCounts (Session.hooks s) !! ActiveChat.id c = Some 0)
  ∧ (∀ s c,
       let selected := step s (ChatSelected c) in
       App.activeChat (Session.hooks selected) = Some c
       ∧ App.unreadCounts (Session.hooks selected)
         = App.unreadCounts (Session.hooks s)
       ∧ ∀ rows,
           let settled :=
             step (run selected (GlobalInsert <$> rows)) EffectsRun in
           App.activeChat (Session.hooks settled) = Some c
           ∧ App.unreadCounts (Session.hooks settled) !! ActiveChat.id c
             = Some 0
           ∧ Session.activationDue settled = false)
  ∧ (∀ s c rows,
       reachable s → Session.activationDue s = false →
       App.activeChat (Session.hooks s) = Some c →
       let s' := run s (GlobalInsert <$> rows) in
       reachable s'
       ∧ Session.activationDue s' = false
       ∧ App.activeChat (Session.hooks s') = Some c
       ∧ App.unreadCounts (Session.hooks s') !! ActiveChat.id c = Some 0).
Proof.
  split; [|split].
  - intros s c Hs Hdue Hc.
    by destruct (reachable_settled_active_is_read s Hs Hdue c Hc).
  - intros s c selected. split; [done|]. split; [done|].
    intros rows settled. subst settled.
    destruct (run_GlobalInsert_keeps selected rows) as [Ha Hdue].
    set (s1 := run selected (GlobalInsert <$> rows)) in *.
    simpl. unfold run_effects. rewrite Hdue. simpl.
    unfold activation_effect. rewrite Ha. simpl.
    split; [done|]. split; [apply onConversationActivated_lookup | done].
  - intros s c rows Hs Hdue Hc s'.
    destruct (run_GlobalInsert_keeps s rows) as [Ha Hdue'].
    assert (reachable s') as Hs' by by apply reachable_run.
    assert (Session.activationDue s' = false) as Hdue''
      by by subst s'; rewrite Hdue'.
    assert (App.activeChat (Session.hooks s') = Some c) as Hc'
      by by subst s'; rewrite Ha.
    split; [done|]. split; [done|]. split; [done|].
    by destruct (reachable_settled_active_is_read s' Hs' Hdue'' c Hc').
Qed.


(** C10: the unread handler compares the derived conversation id with the
    id of the active conversation and never looks at its type: whenever
    the two ids are equal the map is unchanged, for an active user chat
    and for an active group alike, and the handler's result is the same
    for the two kinds of active conversation with one id. *)
Theorem C10_suppression_ignores_chat_type :
  ∀ u m prev,
    (∀ type,
       onMessageObserved u (Some (ActiveChat.mk type (chatId m))) m prev
       = prev)
    ∧ (∀ id,
         onMessageObserved u (Some (ActiveChat.mk user id)) m prev
         = onMessageObserved u (Some (ActiveChat.mk group id)) m prev).
Proof.
  intros u m prev. split.
  - intros type. by apply onMessageObserved_active.
  - done.
Qed.

(** C3 (amended): a message with a group id passes the relevance test of
    every observer, its own sender included; the sender is nevertheless
    never notified, because the handler drops every message authored by
    the observer before the relevance test, whatever conversation is
    active; for every other observer the map is unchanged exactly when
    the group is the active conversation. *)
Theorem C3_group_relevance_and_sender_guard :
  ∀ u m,
    present (Message.group_id m) →
    isRelevant u m = true
    ∧ (Message.sender_id m = User.id u →
       ∀ a prev, onMessageObserved u a m prev = prev)
    ∧ (Message.sender_id m ≠ User.id u →
       ∀ a prev, onMessageObserved u a m prev = prev
                 ↔ is_active_chat a (chatId m) = true).
Proof.
  intros u m Hg. split; [|split].
  - apply isRelevant_spec. by left.
  - intros Hs a prev. by apply onMessageObserved_own.
  - intros Hs a prev. split.
    + intros Hsame.
      destruct (is_active_chat a (chatId m)) eqn:Hact; [done|].
      assert (counts_as_unread u a m) as Hc.
      { split; [done|]. split; [by left|].
        by apply is_active_chat_false. }
      rewrite (onMessageObserved_counts _ _ _ _ Hc) in Hsame.
      by apply increment_changes in Hsame.
    + intros Hact. apply onMessageObserved_skips.
      intros (_ & _ & Hne). apply is_active_chat_false in Hne.
      congruence.
Qed.

(** ** The conversation identifier of a direct exchange *)

Lemma isRelevantDirect_spec u c m :
  isRelevantDirect u c m = true
  ↔ pair_predicate (User.id u) (ActiveChat.id c) m.
Proof.
  unfold isRelevantDirect, pair_predicate.
  by rewrite orb_true_iff, !andb_true_iff, !bool_decide_eq_true,
    !strict_eq_true.
Qed.

Lemma messageData_of_Some st data :
  messageData_of st = Some data →
  ∃ u c,
    App.currentUser st = Some u ∧ App.activeChat st = Some c
    ∧ trim (App.newMessage st) ≠ ""
    ∧ MessageData.sender_id data = User.id u
    ∧ MessageData.content data = trim (App.newMessage st)
    ∧ match ActiveChat.type c with
      | user => MessageData.receiver_id data = Some (ActiveChat.id c)
                ∧ MessageData.group_id data = None
      | group => MessageData.group_id data = Some (ActiveChat.id c)
                 ∧ MessageData.receiver_id data = None
      end.
Proof.
  unfold messageData_of. case_bool_decide as Hempty; [done|].
  destruct (App.currentUser st) as [u|]; [|done].
  destruct (App.activeChat st) as [c|]; [|done].
  intros [= <-]. exists u, c. by destruct (ActiveChat.type c).
Qed.

Lemma messageData_of_None st :
  messageData_of st = None
  ↔ trim (App.newMessage st) = "" ∨ App.currentUser st = None
    ∨ App.activeChat st = None.
Proof.
  unfold messageData_of. case_bool_decide as Hempty.
  - split; [by left | done].
  - destruct (App.currentUser st) as [u|], (App.activeChat st) as [c|];
      (split; [try done; auto | by intros [?|[?|?]]]).
Qed.


(** ** The live feed of a direct conversation *)

Lemma select_user_by_id_unique users id sender :
  List.filter (λ u, bool_decide (User.id u = id)) users = [sender] →
  Response.data (select_user_by_id users id) = Some sender
  ∧ User.id sender = id.
Proof.
  intros Hrows. unfold select_user_by_id. rewrite Hrows. split; [done|].
  assert (In sender (List.filter (λ u, bool_decide (User.id u = id)) users))
    as Hin by (rewrite Hrows; by left).
  apply filter_In in Hin as [_ Hid]. by apply bool_decide_eq_true in Hid.
Qed.

(** C5 (amended): with a direct conversation active, the chat callback
    appends the inserted row if and only if the row satisfies the
    bidirectional pair predicate, which is also the filter of the history
    query.  What it appends is the row with its [sender] set to the data
    of the answer of the sender lookup it issued first, and every other
    field as delivered: the sender's user row when the users table holds
    exactly one row with that id, and null when the lookup finds none, in
    which case the row is appended all the same. *)
Theorem C5_direct_live_filter :
  ∀ u c lookup m prev,
    ActiveChat.type c = user →
    let P := pair_predicate (User.id u) (ActiveChat.id c) m in
    let appended := with_sender m (Response.data lookup) in
    (P → onChatInsert u c lookup m prev
         = (prev ++ [appended], [SelectUserById (Message.sender_id m)]))
    ∧ (¬ P → onChatInsert u c lookup m prev = (prev, []))
    ∧ ((onChatInsert u c lookup m prev).1 ≠ prev ↔ P)
    ∧ (history_filter u c m = true ↔ P)
    ∧ Message.sender appended = Response.data lookup
    ∧ (Message.id appended = Message.id m
       ∧ Message.sender_id appended = Message.sender_id m
       ∧ Message.receiver_id appended = Message.receiver_id m
       ∧ Message.group_id appended = Message.group_id m
       ∧ Message.content appended = Message.content m
       ∧ Message.created_at appended = Message.created_at m)
    ∧ (∀ users sender,
         List.filter (λ x, bool_decide (User.id x = Message.sender_id m))
                     users = [sender] →
         Response.data (select_user_by_id users (Message.sender_id m))
         = Some sender
         ∧ User.id sender = Message.sender_id m)
    ∧ (∀ users,
         List.filter (λ x, bool_decide (User.id x = Message.sender_id m))
                     users = [] →
         Response.data (select_user_by_id users (Message.sender_id m))
         = None).
Proof.
  intros u c lookup m prev Hty P appended.
  assert (P → onChatInsert u c lookup m prev
              = (prev ++ [appended],
                 [SelectUserById (Message.sender_id m)])) as Hyes.
  { intros HP. apply isRelevantDirect_spec in HP.
    unfold onChatInsert. by rewrite HP, andb_false_r. }
  assert (¬ P → onChatInsert u c lookup m prev = (prev, [])) as Hno.
  { intros HP. unfold onChatInsert.
    destruct (isRelevantDirect u c m) eqn:Hrel.
    - by apply isRelevantDirect_spec in Hrel.
    - by rewrite Hty. }
  split; [done|]. split; [done|]. split; [|split].
  - split.
    + intros Hne. destruct (isRelevantDirect u c m) eqn:Hrel.
      * by apply isRelevantDirect_spec.
      * exfalso. apply Hne. rewrite Hno; [done|].
        intros HP. apply isRelevantDirect_spec in HP. congruence.
    + intros HP. rewrite (Hyes HP). simpl. intros Heq.
      apply (f_equal length) in Heq. rewrite length_app in Heq.
      simpl in Heq. lia.
  - unfold history_filter. rewrite Hty. apply isRelevantDirect_spec.
  - split; [done|]. split; [done|]. split.
    + intros users sender Hrows.
      by apply select_user_by_id_unique.
    + intros users Hrows. unfold select_user_by_id. by rewrite Hrows.
Qed.

(** ** Login and sending *)

(** C8: a login with a non-blank username, made through a client.  When
    the lookup returns a row, that user becomes the current user and no
    insert is issued; when it returns none and the insert returns the new
    row, that row becomes the current user; when it returns none and the
    insert fails, one insert was issued, the failure is reported by an
    alert and the current user is the one before the call. *)
Theorem C8_login_find_or_create :
  ∀ client lookup created st,
    trim (App.usernameInput st) ≠ "" →
    let out := handleLogin (Some client) lookup created st in
    (∀ existingUser,
       Response.data lookup = Some existingUser →
       App.currentUser out.1 = Some existingUser
       ∧ List.filter is_insert out.2 = [])
    ∧ (∀ newUser,
         Response.data lookup = None →
         Response.error created = None →
         Response.data created = Some newUser →
         App.currentUser out.1 = Some newUser
         ∧ List.filter is_insert out.2
           = [InsertUser (trim (App.usernameInput st))])
    ∧ (∀ error,
         Response.data lookup = None →
         Response.error created = Some error →
         App.currentUser out.1 = App.currentUser st
         ∧ List.filter is_insert out.2
           = [InsertUser (trim (App.usernameInput st))]
         ∧ List.filter is_alert out.2
           = [Alert "Failed to login. Make sure Supabase is configured."]
         ∧ App.isLoggingIn out.1 = false).
Proof.
  intros client lookup created st Hname out. subst out. unfold handleLogin.
  rewrite bool_decide_eq_false_2 by done.
  split; [|split].
  - by intros existingUser ->.
  - by intros newUser -> -> ->.
  - by intros error -> ->.
Qed.

(** C9: [sendMessage] does nothing when the composed text trims to the
    empty string, when no user is logged in or when no conversation is
    active: no request is issued and the state is returned as it was.
    Otherwise it issues exactly one insert, whose content is the trimmed
    text, whose sender is the current user, and which carries the active
    conversation's id as [receiver_id] for a user chat and as [group_id]
    for a group, the other of the two being unset. *)
Theorem C9_sendMessage_guard :
  ∀ error st,
    (trim (App.newMessage st) = "" ∨ App.currentUser st = None
     ∨ App.activeChat st = None →
     sendMessage error st = (st, []))
    ∧ (∀ u c,
         trim (App.newMessage st) ≠ "" →
         App.currentUser st = Some u → App.activeChat st = Some c →
         ∃ data,
           List.filter is_insert (sendMessage error st).2
           = [InsertMessage data]
           ∧ MessageData.content data = trim (App.newMessage st)
           ∧ MessageData.sender_id data = User.id u
           ∧ match ActiveChat.type c with
             | user =>
                 MessageData.receiver_id data = Some (ActiveChat.id c)
                 ∧ MessageData.group_id data = None
             | group =>
                 MessageData.group_id data = Some (ActiveChat.id c)
                 ∧ MessageData.receiver_id data = None
             end).
Proof.
  intros error st. split.
  - intros Hguard. apply messageData_of_None in Hguard.
    unfold sendMessage. by rewrite Hguard.
  - intros u c Htext Hu Hc.
    destruct (messageData_of st) as [data|] eqn:Hdata.
    + exists data.
      destruct (messageData_of_Some _ _ Hdata)
        as (u' & c' & Hu' & Hc' & _ & Hs & Hcontent & Hkind).
      assert (u' = u) as -> by congruence.
      assert (c' = c) as -> by congruence.
      unfold sendMessage. rewrite Hdata. by destruct error.
    + apply messageData_of_None in Hdata.
      destruct Hdata as [?|[?|?]]; congruence.
Qed.

(** ** The history query and the round trip through the store *)

Lemma insert_by_created_at_perm row rows :
  insert_by_created_at row rows ≡ₚ row :: rows.
Proof.
  induction rows as [|r rs IH]; simpl; [done|].
  case_match; [done|]. rewrite IH. apply Permutation_swap.
Qed.

Lemma order_by_created_at_perm rows : order_by_created_at rows ≡ₚ rows.
Proof.
  induction rows as [|r rs IH]; simpl; [done|].
  rewrite insert_by_created_at_perm. by rewrite IH.
Qed.

Lemma chronological_cons r rs :
  chronological (r :: rs) = true
  ↔ (∀ r', In r' rs →
           created_le (Message.created_at r) (Message.created_at r') = true)
    ∧ chronological rs = true.
Proof. simpl. by rewrite andb_true_iff, forallb_forall. Qed.

Lemma insert_by_created_at_chronological row rows :
  chronological rows = true →
  chronological (insert_by_created_at row rows) = true.
Proof.
  induction rows as [|r rs IH]; [done|].
  intros Hrs. pose proof Hrs as Hrs'.
  apply chronological_cons in Hrs' as [Hle Hchron].
  cbn [insert_by_created_at].
  destruct (created_le (Message.created_at row) (Message.created_at r))
    eqn:Hcmp.
  - apply chronological_cons. split; [|done].
    intros r' [<-|Hin]; [done|].
    eapply created_le_trans; [exact Hcmp | by apply Hle].
  - apply chronological_cons. split; [|by apply IH].
    intros r' Hin.
    apply (Permutation_in _ (insert_by_created_at_perm row rs)) in Hin.
    destruct Hin as [<-|Hin]; [|by apply Hle].
    destruct (created_le_total (Message.created_at row)
                               (Message.created_at r)); congruence.
Qed.

Lemma order_by_created_at_chronological rows :
  chronological (order_by_created_at rows) = true.
Proof.
  induction rows as [|r rs IH]; [done|].
  by apply insert_by_created_at_chronological.
Qed.

Lemma order_by_created_at_id rows :
  chronological rows = true → order_by_created_at rows = rows.
Proof.
  induction rows as [|r rs IH]; [done|].
  intros [Hle Hchron]%chronological_cons. simpl. rewrite IH by done.
  destruct rs as [|r' rs]; [done|]. simpl.
  rewrite Hle; [done | by left].
Qed.

Lemma chronological_filter f rows :
  chronological rows = true → chronological (List.filter f rows) = true.
Proof.
  induction rows as [|r rs IH]; [done|].
  intros [Hle Hchron]%chronological_cons. simpl.
  destruct (f r); [|by apply IH].
  apply chronological_cons. split; [|by apply IH].
  intros r' [Hin _]%filter_In. by apply Hle.
Qed.

Lemma chronological_join users rows :
  chronological rows = true →
  chronological (join_sender users <$> rows) = true.
Proof.
  induction rows as [|r rs IH]; [done|].
  intros [Hle Hchron]%chronological_cons. rewrite fmap_cons.
  apply chronological_cons. split; [|by apply IH].
  intros r' Hin. apply in_map_iff in Hin as (r0 & <- & Hin0).
  simpl. by apply Hle.
Qed.

Lemma chronological_app rows1 rows2 :
  chronological (rows1 ++ rows2) = true →
  chronological rows1 = true ∧ chronological rows2 = true.
Proof.
  induction rows1 as [|r rs IH]; [done|].
  rewrite <- app_comm_cons.
  intros [Hle Hchron]%chronological_cons.
  destruct (IH Hchron) as [H1 H2]. split; [|done].
  apply chronological_cons. split; [|done].
  intros r' Hin. apply Hle, in_or_app. by left.
Qed.

Lemma history_query_chronological u c users rows :
  chronological rows = true →
  history_query u c users rows
  = join_sender users <$> List.filter (history_filter u c) rows.
Proof.
  intros Hchron. unfold history_query.
  by apply order_by_created_at_id, chronological_join,
    chronological_filter.
Qed.

Lemma occurrences_app id rows1 rows2 :
  occurrences id (rows1 ++ rows2)
  = occurrences id rows1 + occurrences id rows2.
Proof. unfold occurrences. by rewrite List.filter_app, length_app. Qed.

Lemma occurrences_fresh id f users rows :
  id ∉ (Message.id <$> rows) →
  occurrences id (join_sender users <$> List.filter f rows) = 0.
Proof.
  induction rows as [|r rs IH]; [done|].
  rewrite fmap_cons, not_elem_of_cons. intros [Hne Hnin]. simpl.
  destruct (f r); [|by apply IH]. rewrite fmap_cons.
  unfold occurrences in *. simpl.
  rewrite bool_decide_eq_false_2 by done. by apply IH.
Qed.

Lemma send_to_store_inserted id created_at st rows st' data rows' :
  send_to_store id created_at st rows
  = (st', [InsertMessage data], rows') →
  messageData_of st = Some data
  ∧ (id ∉ (Message.id <$> rows))
  ∧ rows' = (rows ++ [Message.mk id (MessageData.sender_id data)
                        (MessageData.receiver_id data)
                        (MessageData.group_id data)
                        (MessageData.content data) created_at None]).
Proof.
  unfold send_to_store, sendMessage, insert_message.
  destruct (messageData_of st) as [data'|]; [|done].
  case_bool_decide as Hin; [done|]. by intros [= <- <- <-].
Qed.

Lemma sent_row_in_history st u c viewer chat data id created_at :
  App.currentUser st = Some u → App.activeChat st = Some c →
  messageData_of st = Some data →
  views_conversation u c viewer chat →
  history_filter viewer chat
    (Message.mk id (MessageData.sender_id data)
       (MessageData.receiver_id data) (MessageData.group_id data)
       (MessageData.content data) created_at None) = true.
Proof.
  intros Hu Hc Hdata [Hty Hview].
  destruct (messageData_of_Some _ _ Hdata)
    as (u' & c' & Hu' & Hc' & _ & Hs & _ & Hkind).
  assert (u' = u) as -> by congruence.
  assert (c' = c) as -> by congruence.
  unfold history_filter. rewrite Hty. destruct (ActiveChat.type c).
  - destruct Hkind as [Hr _]. apply isRelevantDirect_spec.
    destruct Hview as [[Hv Hid]|[Hv Hid]]; [left | right]; simpl;
      split; congruence.
  - destruct Hkind as [Hg _]. simpl. apply strict_eq_true. congruence.
Qed.

Lemma views_conversation_own u c : views_conversation u c u c.
Proof. split; [done|]. destruct (ActiveChat.type c); [by left | done]. Qed.

Lemma occurrences_perm id rows rows' :
  rows ≡ₚ rows' → occurrences id rows = occurrences id rows'.
Proof.
  unfold occurrences.
  induction 1 as [|m l l' _ IH|m m' l|l l' l'' _ IH1 _ IH2]; simpl.
  - done.
  - case_bool_decide; simpl; by rewrite IH.
  - by repeat case_bool_decide.
  - by rewrite IH1.
Qed.

Lemma insert_all_cons id created_at data inserts rows :
  insert_all ((id, created_at, data) :: inserts) rows
  = insert_all inserts
      match insert_message id created_at data rows with
      | inl rows' => rows'
      | inr _ => rows
      end.
Proof. done. Qed.

Lemma insert_all_app inserts rows :
  ∃ later, insert_all inserts rows = rows ++ later.
Proof.
  revert rows. induction inserts as [|[[id created_at] data] inserts IH];
    intros rows.
  - exists []. by rewrite app_nil_r.
  - rewrite insert_all_cons. unfold insert_message.
    case_bool_decide; [apply IH|].
    match goal with
    | |- ∃ later, insert_all inserts ?l = _ => destruct (IH l) as [later ->]
    end.
    eexists. by rewrite <- app_assoc.
Qed.

Lemma insert_all_NoDup inserts rows :
  NoDup (Message.id <$> rows) →
  NoDup (Message.id <$> insert_all inserts rows).
Proof.
  revert rows. induction inserts as [|[[id created_at] data] inserts IH];
    intros rows Hnodup; [done|].
  rewrite insert_all_cons. unfold insert_message.
  case_bool_decide as Hin; [by apply IH|].
  apply IH. rewrite fmap_app. apply NoDup_app. split; [done|].
  split; [|apply NoDup_singleton].
  intros x Hx Hx'. apply list_elem_of_In in Hx'. simpl in Hx'.
  destruct Hx' as [<-|[]]. done.
Qed.

(** C6 (amended): the history query of a direct conversation returns
    exactly the rows that satisfy the bidirectional pair predicate, each
    joined with its sender, in ascending order of [created_at].  A message
    that [sendMessage] inserted into the active conversation is the last
    row of the table at that moment, and in every later state of the
    table the history of that conversation, fetched by the sender or by
    any other session that has the conversation open, holds it exactly
    once.  The history is in the order of [created_at]: it is the history
    before the insert, then the sent message, then the history of the
    rows inserted after it, when the rows of the table are stamped in
    insertion order. *)
Theorem C6_send_fetch_round_trip :
  (∀ u c users rows,
     ActiveChat.type c = user →
     let fetched := history_query u c users rows in
     fetched ≡ₚ join_sender users
                  <$> List.filter (isRelevantDirect u c) rows
     ∧ chronological fetched = true
     ∧ ∀ m, In m fetched
            ↔ ∃ row, In row rows
                     ∧ pair_predicate (User.id u) (ActiveChat.id c) row
                     ∧ m = join_sender users row)
  ∧ (∀ inserts st u c id created_at st' data rows' more,
       let rows := insert_all inserts [] in
       App.currentUser st = Some u → App.activeChat st = Some c →
       send_to_store id created_at st rows
       = (st', [InsertMessage data], rows') →
       let table := insert_all more rows' in
       ∃ row later,
         rows' = rows ++ [row]
         ∧ table = rows' ++ later
         ∧ Message.id row = id
         ∧ Message.sender_id row = User.id u
         ∧ Message.content row = trim (App.newMessage st)
         ∧ views_conversation u c u c
         ∧ ∀ viewer chat users,
             views_conversation u c viewer chat →
             let fetched := history_query viewer chat users table in
             occurrences id fetched = 1
             ∧ chronological fetched = true
             ∧ (chronological table = true →
                fetched
                = history_query viewer chat users rows
                  ++ join_sender users row
                     :: history_query viewer chat users later)).
Proof.
  split.
  - intros u c users rows Hty fetched. subst fetched.
    assert (history_query u c users rows
            ≡ₚ join_sender users
                 <$> List.filter (isRelevantDirect u c) rows) as Hperm.
    { unfold history_query. rewrite order_by_created_at_perm.
      unfold history_filter. by rewrite Hty. }
    split; [done|]. split; [apply order_by_created_at_chronological|].
    intros m. split.
    + intros Hin. apply (Permutation_in _ Hperm) in Hin.
      apply in_map_iff in Hin as (row & <- & Hin).
      apply filter_In in Hin as [Hin Hrel].
      exists row. by rewrite <- isRelevantDirect_spec.
    + intros (row & Hin & HP & ->).
      apply (Permutation_in _ (Permutation_sym Hperm)).
      apply in_map, filter_In. by rewrite isRelevantDirect_spec.
  - intros inserts st u c id created_at st' data rows' more rows
           Hu Hc Hsend table.
    destruct (send_to_store_inserted _ _ _ _ _ _ _ Hsend)
      as (Hdata & Hfresh & ->).
    set (row := Message.mk id _ _ _ _ _ _) in *.
    destruct (messageData_of_Some _ _ Hdata)
      as (u' & _ & Hu' & _ & _ & Hs & Hcontent & _).
    assert (u' = u) as -> by congruence.
    destruct (insert_all_app more (rows ++ [row])) as [later Hlater].
    fold table in Hlater.
    exists row, later. split; [done|]. split; [done|]. split; [done|].
    split; [done|]. split; [done|]. split; [apply views_conversation_own|].
    intros viewer chat users Hview fetched. subst fetched.
    pose proof (sent_row_in_history st u c viewer chat data id created_at
                  Hu Hc Hdata Hview) as Hrow. fold row in Hrow.
    assert (NoDup (Message.id <$> table)) as Hnodup.
    { subst table. apply insert_all_NoDup.
      rewrite fmap_app. apply NoDup_app.
      split; [subst rows; apply insert_all_NoDup; constructor|].
      split; [|apply NoDup_singleton].
      intros x Hx Hx'. apply list_elem_of_In in Hx'. simpl in Hx'.
      destruct Hx' as [<-|[]]. done. }
    rewrite Hlater, fmap_app, fmap_app in Hnodup. simpl in Hnodup.
    rewrite <- app_assoc in Hnodup.
    apply NoDup_app in Hnodup as (_ & _ & Hnodup).
    apply NoDup_cons in Hnodup as [Hafter _].
    split; [|split].
    + unfold history_query.
      rewrite (occurrences_perm _ _ _ (order_by_created_at_perm _)).
      rewrite Hlater, !List.filter_app, !fmap_app. simpl. rewrite Hrow.
      rewrite !occurrences_app. rewrite !occurrences_fresh by done.
      unfold occurrences. simpl. by rewrite bool_decide_eq_true_2.
    + apply order_by_created_at_chronological.
    + intros Hchron. rewrite Hlater in Hchron |- *.
      destruct (chronological_app _ _ Hchron) as [Hchron1 Hchron3].
      destruct (chronological_app _ _ Hchron1) as [Hchron0 _].
      rewrite !history_query_chronological by done.
      rewrite !List.filter_app, !fmap_app. simpl. rewrite Hrow.
      by rewrite <- app_assoc.
Qed.

(** ** Further properties of the unread tracker *)

Lemma onMessageObserved_lookup u a m prev k :
  onMessageObserved u a m prev !! k
  = if counted u a k m then Some (count_of prev k + 1) else prev !! k.
Proof.
  unfold onMessageObserved, counted.
  case_bool_decide as Hsender; simpl; [done|].
  destruct (is_active_chat a (chatId m)); simpl; [done|].
  destruct (isRelevant u m); simpl; [|done].
  case_bool_decide as Hk.
  - subst k. by rewrite lookup_insert_eq.
  - by rewrite lookup_insert_ne.
Qed.

Lemma observe_all_lookup u a k msgs prev :
  observe_all u a msgs prev !! k
  = match unread_received u a k msgs with
    | 0 => prev !! k
    | S _ => Some (count_of prev k + unread_received u a k msgs)
    end.
Proof.
  revert prev. induction msgs as [|m msgs IH]; intros prev; [done|].
  unfold observe_all. simpl.
  fold (observe_all u a msgs (onMessageObserved u a m prev)).
  rewrite IH. unfold unread_received. simpl.
  pose proof (onMessageObserved_lookup u a m prev k) as Hm.
  unfold count_of at 1. rewrite Hm.
  destruct (counted u a k m); simpl.
  - destruct (length _); f_equal; lia.
  - done.
Qed.

Lemma unread_received_perm u a k msgs msgs' :
  msgs ≡ₚ msgs' → unread_received u a k msgs = unread_received u a k msgs'.
Proof.
  unfold unread_received.
  induction 1 as [|m l l' _ IH|m m' l|l l' l'' _ IH1 _ IH2]; simpl.
  - done.
  - destruct (counted u a k m); simpl; by rewrite IH.
  - by destruct (counted u a k m), (counted u a k m').
  - by rewrite IH1.
Qed.

(** X1: after any batch of inserted rows is delivered to the global
    callback, the entry of a conversation is what it was when no row was
    counted for it, and otherwise its former count (0 when it had none)
    plus the number of rows that passed the three tests and were filed
    under it. *)
Theorem unread_count_is_number_of_counted_rows :
  ∀ u a msgs prev k,
    observe_all u a msgs prev !! k
    = match unread_received u a k msgs with
      | 0 => prev !! k
      | S _ => Some (count_of prev k + unread_received u a k msgs)
      end
    ∧ count_of (observe_all u a msgs prev) k
      = count_of prev k + unread_received u a k msgs.
Proof.
  intros u a msgs prev k. split; [apply observe_all_lookup|].
  unfold count_of at 1. rewrite observe_all_lookup.
  destruct (unread_received u a k msgs) eqn:Hn; simpl; [|done].
  unfold count_of. lia.
Qed.

(** X2: the unread map does not depend on the order in which the feed
    delivers a batch of rows. *)
Theorem unread_counts_delivery_order :
  ∀ u a msgs msgs' prev,
    msgs ≡ₚ msgs' → observe_all u a msgs prev = observe_all u a msgs' prev.
Proof.
  intros u a msgs msgs' prev Hperm. apply map_eq. intros k.
  rewrite !observe_all_lookup.
  by rewrite (unread_received_perm u a k msgs msgs' Hperm).
Qed.

(** X3: one event changes the count of a conversation in one of two ways
    only: a row delivered to the global callback and filed under the
    conversation adds one, and the effect that runs after the conversation
    was selected sets its entry to 0.  Nothing else, logout and login
    included, lowers or raises a count. *)
Theorem unread_count_changes_by_event :
  ∀ s e k,
    let before := count_of (App.unreadCounts (Session.hooks s)) k in
    let after :=
      count_of (App.unreadCounts (Session.hooks (step s e))) k in
    after = before
    ∨ (∃ row, e = GlobalInsert row ∧ chatId row = k ∧ after = before + 1)
    ∨ (∃ c, e = EffectsRun ∧ Session.activationDue s = true
            ∧ App.activeChat (Session.hooks s) = Some c
            ∧ ActiveChat.id c = k
            ∧ App.unreadCounts (Session.hooks (step s e)) !! k = Some 0).
Proof.
  intros s e k before after. subst before after.
  destruct e; try by left.
  - left. simpl.
    by destruct (handleLogin_keeps (Some client) lookup created
                   (Session.hooks s)) as [_ ->].
  - left. simpl.
    by destruct (sendMessage_keeps error (Session.hooks s)) as [_ ->].
  - left. by destruct data.
  - simpl. unfold run_effects.
    destruct (Session.activationDue s) eqn:Hdue; [|by left]. simpl.
    unfold activation_effect.
    destruct (App.activeChat (Session.hooks s)) as [c|] eqn:Hc;
      [|by left]. simpl.
    destruct (decide (ActiveChat.id c = k)) as [Hk|Hk].
    + right. right. exists c. do 4 (split; [done|]).
      subst k. apply onConversationActivated_lookup.
    + left. unfold onConversationActivated. by apply count_of_insert_ne.
  - simpl. destruct (Session.globalSub s) as [[u a]|]; [|by left]. simpl.
    pose proof (onMessageObserved_lookup u a row
                  (App.unreadCounts (Session.hooks s)) k) as Hm.
    destruct (counted u a k row) eqn:Hc.
    + right. left. exists row. split; [done|].
      unfold counted in Hc. rewrite !andb_true_iff in Hc.
      destruct Hc as [_ Hk]. apply bool_decide_eq_true in Hk.
      split; [done|]. unfold count_of at 1. by rewrite Hm.
    + left. unfold count_of at 1. by rewrite Hm.
  - left. simpl. destruct (Session.chatSub s) as [[u c]|]; [|done].
    by case_match.
  - left. simpl. by destruct (Session.awaiting s !! n).
Qed.

(** ** The two subscriptions together *)

Lemma feed_filter_and_test u c row :
  chat_feed_filter c row && chat_callback_accepts u c row
  = history_filter u c row.
Proof.
  unfold chat_feed_filter, chat_callback_accepts, history_filter.
  destruct (ActiveChat.type c); simpl.
  - by destruct (isRelevantDirect u c row).
  - by rewrite andb_true_r.
Qed.

(** The callback of the source is the test, then the append. *)
Lemma onChatInsert_two_halves u c lookup row prev :
  onChatInsert u c lookup row prev
  = if chat_callback_accepts u c row
    then (prev ++ [with_sender row (Response.data lookup)],
          [SelectUserById (Message.sender_id row)])
    else (prev, []).
Proof.
  unfold onChatInsert, chat_callback_accepts.
  by destruct (bool_decide (ActiveChat.type c = user)
               && negb (isRelevantDirect u c row)).
Qed.

Lemma step_ChatInsert_awaiting s u c row :
  Session.chatSub s = Some (u, c) →
  step s (ChatInsert row)
  = if history_filter u c row
    then Session.mk (Session.hooks s) (Session.globalSub s)
                    (Session.chatSub s) (Session.activationDue s)
                    (Session.awaiting s ++ [row])
    else s.
Proof. intros Hsub. simpl. by rewrite Hsub, feed_filter_and_test. Qed.

(** A row is delivered to the chat callback and its sender lookup answers
    before anything else happens. *)
Lemma deliver_and_resolve_messages s u c row lookup :
  Session.chatSub s = Some (u, c) →
  App.messages
    (Session.hooks
       (run s [ChatInsert row;
               SenderResolved (length (Session.awaiting s)) lookup]))
  = if history_filter u c row
    then App.messages (Session.hooks s)
         ++ [with_sender row (Response.data lookup)]
    else App.messages (Session.hooks s).
Proof.
  intros Hsub. unfold run. cbn [foldl].
  rewrite (step_ChatInsert_awaiting s u c row Hsub).
  destruct (history_filter u c row); simpl.
  - by rewrite list_lookup_middle.
  - by rewrite lookup_ge_None_2.
Qed.

Lemma deliver_and_resolve_unsubscribed s row lookup :
  Session.chatSub s = None →
  run s [ChatInsert row; SenderResolved (length (Session.awaiting s)) lookup]
  = s.
Proof.
  intros Hsub. unfold run. simpl. rewrite Hsub.
  by rewrite lookup_ge_None_2.
Qed.

Lemma step_subs_of_one_render s e :
  subs_of_one_render s → subs_of_one_render (step s e).
Proof.
  intros Hinv. destruct e; simpl; try exact Hinv.
  - intros u c. unfold run_effects.
    cbn [Session.chatSub Session.globalSub].
    set (h := if Session.activationDue s then _ else _).
    destruct (App.currentUser h) as [u'|]; [|done].
    destruct (App.activeChat h) as [c'|]; [|done].
    by intros [= <- <-].
  - destruct (Session.globalSub s) as [[u a]|] eqn:Hsub; [|done].
    intros u' c' Hc'. simpl in *. by apply Hinv.
  - destruct (Session.chatSub s) as [[u c]|] eqn:Hsub; [|done].
    case_match; [|done].
    intros u' c' Hc'. simpl in *. apply Hinv. congruence.
  - destruct (Session.awaiting s !! n); [|done].
    intros u' c' Hc'. simpl in *. by apply Hinv.
Qed.

Lemma reachable_subs_of_one_render s :
  reachable s → subs_of_one_render s.
Proof.
  intros [events ->].
  assert (∀ s0, subs_of_one_render s0 → subs_of_one_render (run s0 events))
    as Hrun.
  { induction events as [|e events IH]; intros s0 Hinv; [done|].
    simpl. by apply IH, step_subs_of_one_render. }
  apply Hrun. by intros u c.
Qed.

Lemma shown_row_not_counted u c row :
  exactly_one_target row → history_filter u c row = true →
  ¬ counts_as_unread u (Some c) row.
Proof.
  intros Hone Hshown (Hsender & Hrel & Hact).
  specialize (Hact c eq_refl). unfold history_filter in Hshown.
  destruct (ActiveChat.type c).
  - apply isRelevantDirect_spec in Hshown as [[Hs _]|[Hs Hr]]; [done|].
    destruct Hone as [[_ Hg]|[Hnone _]]; [|congruence].
    apply Hact. unfold chatId. by rewrite Hg.
  - apply strict_eq_true in Hshown.
    destruct Hone as [[_ Hg]|[Hnone _]]; [congruence|].
    destruct Hrel as [(g & Hg & Hne)|Hr]; [|congruence].
    apply Hact. unfold chatId. rewrite Hg. simpl.
    rewrite bool_decide_eq_false_2 by done. congruence.
Qed.

(** X4: a row with exactly one of [receiver_id] and [group_id], delivered
    to both subscriptions, is never both accepted by the chat callback,
    which appends it to the list when its sender lookup answers, and
    counted as unread.  This holds in every session whose two callbacks
    close over the values of one render, whatever its hooks hold, and
    every reachable session is one. *)
Theorem shown_live_or_counted_never_both :
  (∀ s, reachable s → subs_of_one_render s)
  ∧ ∀ s row lookup,
      subs_of_one_render s → exactly_one_target row →
      ¬ (App.messages
           (Session.hooks
              (run s [ChatInsert row;
                      SenderResolved (length (Session.awaiting s)) lookup]))
         ≠ App.messages (Session.hooks s)
         ∧ App.unreadCounts (Session.hooks (step s (GlobalInsert row)))
           ≠ App.unreadCounts (Session.hooks s)).
Proof.
  split; [exact reachable_subs_of_one_render|].
  intros s row lookup Hs Hone [Hshown Hcounted].
  destruct (Session.chatSub s) as [[u c]|] eqn:Hsub;
    [|by rewrite deliver_and_resolve_unsubscribed in Hshown].
  rewrite (deliver_and_resolve_messages s u c) in Hshown by done.
  destruct (history_filter u c row) eqn:Hrow; [|done].
  simpl in Hcounted. rewrite (Hs u c Hsub) in Hcounted.
  simpl in Hcounted. apply onMessageObserved_changed in Hcounted.
  by apply (shown_row_not_counted u c row).
Qed.

(** ** Sending, the echo and the receiver *)

Lemma send_to_store_state id created_at st rows st' data rows' :
  send_to_store id created_at st rows = (st', [InsertMessage data], rows') →
  st' = setNewMessage "" st ∧ (sendMessage None st).1 = st'.
Proof.
  unfold send_to_store, sendMessage, insert_message.
  destruct (messageData_of st) as [data'|]; [|done].
  case_bool_decide as Hin; [done|]. by intros [= <- <- <-].
Qed.

Lemma update_hooks_same f s :
  f (Session.hooks s) = Session.hooks s → update_hooks f s = s.
Proof. intros Hf. unfold update_hooks. rewrite Hf. by destruct s. Qed.

Lemma setUnreadCounts_same st f :
  f (App.unreadCounts st) = App.unreadCounts st → setUnreadCounts f st = st.
Proof. intros Hf. unfold setUnreadCounts. rewrite Hf. by destruct st. Qed.

(** X5: when [sendMessage] has inserted a row, the sender's session, with
    the compose field emptied and its subscriptions those of the
    conversation the row was sent from, accepts that row in the chat
    callback; when the sender lookup answers, the row is appended to the
    list with [sender] set to the data of that answer, and the global
    callback leaves the session as it is. *)
Theorem sender_receives_own_message :
  ∀ s u c a id created_at rows st' data rows',
    App.currentUser (Session.hooks s) = Some u →
    App.activeChat (Session.hooks s) = Some c →
    Session.chatSub s = Some (u, c) →
    Session.globalSub s = Some (u, a) →
    send_to_store id created_at (Session.hooks s) rows
    = (st', [InsertMessage data], rows') →
    let sent := step s (MessageSubmitted None) in
    ∃ row,
      rows' = rows ++ [row]
      ∧ Session.hooks sent = st'
      ∧ App.newMessage st' = ""
      ∧ (∀ lookup,
           ∃ m,
             App.messages
               (Session.hooks
                  (run sent
                     [ChatInsert row;
                      SenderResolved (length (Session.awaiting sent))
                                     lookup]))
             = App.messages (Session.hooks s) ++ [m]
             ∧ Message.sender m = Response.data lookup
             ∧ Message.id m = id
             ∧ Message.sender_id m = User.id u
             ∧ Message.content m = trim (App.newMessage (Session.hooks s))
             ∧ Message.created_at m = created_at)
      ∧ step sent (GlobalInsert row) = sent.
Proof.
  intros s u c a id created_at rows st' data rows' Hu Hc Hchat Hglobal
         Hsend sent.
  destruct (send_to_store_state _ _ _ _ _ _ _ Hsend) as [-> Hsent].
  destruct (send_to_store_inserted _ _ _ _ _ _ _ Hsend)
    as (Hdata & _ & ->).
  set (row := Message.mk id _ _ _ _ _ _) in *.
  pose proof (sent_row_in_history (Session.hooks s) u c u c data id
                created_at Hu Hc Hdata (views_conversation_own u c))
    as Hrow. fold row in Hrow.
  destruct (messageData_of_Some _ _ Hdata)
    as (u' & _ & Hu' & _ & _ & Hs & Hcontent & _).
  assert (u' = u) as -> by congruence.
  exists row. split; [done|]. split; [by subst sent; simpl; rewrite Hsent|].
  split; [done|]. split.
  - intros lookup. exists (with_sender row (Response.data lookup)).
    rewrite (deliver_and_resolve_messages sent u c) by done.
    rewrite Hrow. subst sent. simpl. rewrite Hsent. by repeat split.
  - subst sent. simpl. rewrite Hglobal. apply update_hooks_same.
    simpl. apply setUnreadCounts_same. by apply onMessageObserved_own.
Qed.

(** X6: a row sent from a direct conversation reaches the session of the
    other participant in one of three ways, by the conversation its
    subscriptions were made for, and there is no fourth.  The chat with
    the sender: the chat callback accepts the row and appends it when the
    lookup answers, and the unread map is unchanged.  A group whose id is
    the sender's id: the row is neither appended nor counted.  Any other
    conversation, or none: the global callback adds one to the count kept
    under the sender's id and the list is unchanged. *)
Theorem receiver_sees_or_counts_message :
  ∀ st u c id created_at rows st' data rows' rt v a,
    App.currentUser st = Some u → App.activeChat st = Some c →
    ActiveChat.type c = user →
    send_to_store id created_at st rows
    = (st', [InsertMessage data], rows') →
    Session.globalSub rt = Some (v, a) →
    Session.chatSub rt = (λ c', (v, c')) <$> a →
    User.id v = ActiveChat.id c → User.id v ≠ User.id u →
    ∃ row,
      rows' = rows ++ [row]
      ∧ (a = Some (ActiveChat.mk user (User.id u))
         ∨ a = Some (ActiveChat.mk group (User.id u))
         ∨ is_active_chat a (User.id u) = false)
      ∧ let listed lookup :=
          App.messages
            (Session.hooks
               (run rt [ChatInsert row;
                        SenderResolved (length (Session.awaiting rt))
                                       lookup])) in
        let counts :=
          App.unreadCounts (Session.hooks (step rt (GlobalInsert row))) in
        let before := App.unreadCounts (Session.hooks rt) in
        (a = Some (ActiveChat.mk user (User.id u)) →
         (∀ lookup,
            listed lookup
            = App.messages (Session.hooks rt)
              ++ [with_sender row (Response.data lookup)])
         ∧ counts = before)
        ∧ (a = Some (ActiveChat.mk group (User.id u)) →
           (∀ lookup, listed lookup = App.messages (Session.hooks rt))
           ∧ counts = before)
        ∧ (is_active_chat a (User.id u) = false →
           (∀ lookup, listed lookup = App.messages (Session.hooks rt))
           ∧ counts
             = <[User.id u := count_of before (User.id u) + 1]> before).
Proof.
  intros st u c id created_at rows st' data rows' rt v a
         Hu Hc Hty Hsend Hglobal Hchat Hvc Hvu.
  destruct (send_to_store_inserted _ _ _ _ _ _ _ Hsend)
    as (Hdata & _ & ->).
  set (row := Message.mk id _ _ _ _ _ _) in *.
  destruct (messageData_of_Some _ _ Hdata)
    as (u' & c' & Hu' & Hc' & _ & Hs & _ & Hkind).
  assert (u' = u) as -> by congruence.
  assert (c' = c) as -> by congruence.
  rewrite Hty in Hkind. destruct Hkind as [Hr Hg].
  assert (chatId row = User.id u) as Hchat_id.
  { unfold chatId, row. simpl. by rewrite Hg, Hs. }
  assert (∀ c0, a = Some c0 → ∀ lookup,
            App.messages
              (Session.hooks
                 (run rt [ChatInsert row;
                          SenderResolved (length (Session.awaiting rt))
                                         lookup]))
            = if history_filter v c0 row
              then App.messages (Session.hooks rt)
                   ++ [with_sender row (Response.data lookup)]
              else App.messages (Session.hooks rt)) as Hlisted.
  { intros c0 -> lookup. by apply deliver_and_resolve_messages. }
  assert (App.unreadCounts (Session.hooks (step rt (GlobalInsert row)))
          = onMessageObserved v a row (App.unreadCounts (Session.hooks rt)))
    as Hcounts by (simpl; by rewrite Hglobal).
  exists row. split; [done|]. split.
  { destruct a as [[ty i]|]; simpl; [|by right; right].
    destruct (decide (i = User.id u)) as [->|Hne].
    - destruct ty; [by left | by right; left].
    - right; right. by apply bool_decide_eq_false_2. }
  intros listed counts before.
  subst listed counts before. rewrite Hcounts.
  split; [|split].
  - intros Ha. split.
    + intros lookup. rewrite (Hlisted _ Ha).
      assert (history_filter v (ActiveChat.mk user (User.id u)) row = true)
        as ->; [|done].
      apply isRelevantDirect_spec. right. simpl. split; congruence.
    + subst a. apply onMessageObserved_active. by rewrite Hchat_id.
  - intros Ha. split.
    + intros lookup. rewrite (Hlisted _ Ha).
      assert (history_filter v (ActiveChat.mk group (User.id u)) row
              = false) as ->; [|done].
      unfold history_filter, strict_eq. simpl. rewrite Hg.
      by apply bool_decide_eq_false_2.
    + subst a. apply onMessageObserved_active. by rewrite Hchat_id.
  - intros Ha. split.
    + intros lookup. destruct a as [c0|].
      * rewrite (Hlisted c0 eq_refl).
        assert (history_filter v c0 row = false) as ->; [|done].
        simpl in Ha. apply bool_decide_eq_false in Ha.
        unfold history_filter. destruct (ActiveChat.type c0).
        -- apply not_true_is_false. intros Hrel.
           apply isRelevantDirect_spec in Hrel as [[Hs' _]|[Hs' _]];
             simpl in Hs'; congruence.
        -- unfold strict_eq. simpl. rewrite Hg.
           by apply bool_decide_eq_false_2.
      * simpl in Hchat. by rewrite deliver_and_resolve_unsubscribed.
    + rewrite <- Hchat_id.
      apply onMessageObserved_counts. split; [|split].
      * simpl. congruence.
      * right. simpl. congruence.
      * rewrite Hchat_id. by apply is_active_chat_false.
Qed.

(** ** Further properties of the conversation loader *)

(** X7: the two participants of a direct conversation load the same
    history: the query of [u] for the chat with [v] and the query of [v]
    for the chat with [u] return the same list. *)
Theorem direct_history_same_for_both :
  ∀ (u v : User.t) users rows,
    history_query u (ActiveChat.mk user (User.id v)) users rows
    = history_query v (ActiveChat.mk user (User.id u)) users rows.
Proof.
  intros u v users rows. unfold history_query. do 2 f_equal.
  apply filter_ext. intros row.
  unfold history_filter, isRelevantDirect. simpl. apply orb_comm.
Qed.

(** X8: the history query of a group returns exactly the rows whose
    [group_id] is the group's id, each once for each time it is in the
    table and joined with its sender, in ascending order of
    [created_at]; rows without a group are never among them. *)
Theorem group_history_exact :
  ∀ u c users rows,
    ActiveChat.type c = group →
    let fetched := history_query u c users rows in
    fetched
    ≡ₚ join_sender users
         <$> List.filter
               (λ row, bool_decide
                         (Message.group_id row = Some (ActiveChat.id c)))
               rows
    ∧ chronological fetched = true
    ∧ ∀ m, In m fetched
           ↔ ∃ row, In row rows
                    ∧ Message.group_id row = Some (ActiveChat.id c)
                    ∧ m = join_sender users row.
Proof.
  intros u c users rows Hty fetched. subst fetched.
  assert (history_query u c users rows
          ≡ₚ join_sender users
               <$> List.filter
                     (λ row, bool_decide
                               (Message.group_id row
                                = Some (ActiveChat.id c))) rows) as Hperm.
  { unfold history_query. rewrite order_by_created_at_perm.
    unfold history_filter. by rewrite Hty. }
  split; [done|]. split; [apply order_by_created_at_chronological|].
  intros m. split.
  - intros Hin. apply (Permutation_in _ Hperm) in Hin.
    apply in_map_iff in Hin as (row & <- & Hin).
    apply filter_In in Hin as [Hin Hg]. apply bool_decide_eq_true in Hg.
    by exists row.
  - intros (row & Hin & Hg & ->).
    apply (Permutation_in _ (Permutation_sym Hperm)).
    apply in_map, filter_In. by rewrite bool_decide_eq_true.
Qed.

Lemma select_user_by_id_find users id :
  NoDup (User.id <$> users) →
  Response.data (select_user_by_id users id)
  = find (λ u, bool_decide (User.id u = id)) users.
Proof.
  unfold select_user_by_id.
  induction users as [|u us IH]; [done|].
  rewrite fmap_cons, NoDup_cons. intros [Hnin Hnodup]. simpl.
  case_bool_decide as Hid; [|by apply IH].
  assert (List.filter (λ u0, bool_decide (User.id u0 = id)) us = [])
    as ->; [|done].
  clear -Hnin Hid.
  induction us as [|u' us IH]; [done|].
  rewrite fmap_cons, not_elem_of_cons in Hnin. destruct Hnin as [Hne Hnin].
  simpl. rewrite bool_decide_eq_false_2 by congruence. by apply IH.
Qed.

(** X9: the live path agrees with a reload when nothing comes in
    between.  If the list holds the history of the conversation the chat
    subscription was made for, and the next row inserted into the table is
    delivered to it and the sender lookup answers before any other event,
    the list is then the history a new query would return, whether the
    row belongs to the conversation or not. *)
Theorem live_append_agrees_with_reload :
  ∀ s u c users rows row,
    Session.chatSub s = Some (u, c) →
    NoDup (User.id <$> users) →
    chronological (rows ++ [row]) = true →
    App.messages (Session.hooks s) = history_query u c users rows →
    App.messages
      (Session.hooks
         (run s [ChatInsert row;
                 SenderResolved (length (Session.awaiting s))
                   (select_user_by_id users (Message.sender_id row))]))
    = history_query u c users (rows ++ [row]).
Proof.
  intros s u c users rows row Hsub Hnodup Hchron Hlist.
  destruct (chronological_app _ _ Hchron) as [Hchron0 _].
  rewrite (deliver_and_resolve_messages s u c) by done.
  rewrite Hlist, !history_query_chronological by done.
  rewrite List.filter_app, fmap_app. simpl.
  destruct (history_filter u c row); simpl.
  - unfold join_sender. by rewrite select_user_by_id_find.
  - by rewrite app_nil_r.
Qed.

(** X10: the chat callback does not look for the row in the list: every
    delivery of a row of the subscribed conversation adds one occurrence
    of its id once the lookup has answered, so a row delivered twice, or
    delivered after a query that already returned it, is listed twice. *)
Theorem live_append_does_not_deduplicate :
  ∀ s u c row lookup,
    Session.chatSub s = Some (u, c) →
    history_filter u c row = true →
    occurrences (Message.id row)
      (App.messages
         (Session.hooks
            (run s [ChatInsert row;
                    SenderResolved (length (Session.awaiting s)) lookup])))
    = S (occurrences (Message.id row) (App.messages (Session.hooks s))).
Proof.
  intros s u c row lookup Hsub Hrow.
  rewrite (deliver_and_resolve_messages s u c) by done. rewrite Hrow.
  rewrite occurrences_app. unfold occurrences at 2. simpl.
  rewrite bool_decide_eq_true_2 by done. simpl. lia.
Qed.

Lemma handleLogin_messages supabase lookup created st :
  App.messages (handleLogin supabase lookup created st).1 = App.messages st
  ∧ App.newMessage (handleLogin supabase lookup created st).1
    = App.newMessage st.
Proof. unfold handleLogin. by repeat case_match. Qed.

Lemma sendMessage_messages error st :
  App.messages (sendMessage error st).1 = App.messages st.
Proof. unfold sendMessage. by repeat case_match. Qed.

(** X11: one event changes the message list in one of two ways only: the
    answer of a history query that carries data replaces it, and the
    answer of an awaited sender lookup adds the awaited row at the end of
    the list as it then is, whatever conversation is open by then.  A row
    comes to be awaited in one way only: it is delivered to the chat
    callback and passes the filter of the conversation the subscription
    was made for.  Selecting another chat, a query that fails, sending,
    logging out and logging in leave the list as it is. *)
Theorem message_list_changes_by_event :
  ∀ s e,
    (App.messages (Session.hooks (step s e)) = App.messages (Session.hooks s)
     ∨ (∃ rows, e = HistoryFetched (Some rows)
                ∧ App.messages (Session.hooks (step s e)) = rows)
     ∨ (∃ n lookup row,
          e = SenderResolved n lookup
          ∧ Session.awaiting s !! n = Some row
          ∧ App.messages (Session.hooks (step s e))
            = App.messages (Session.hooks s)
              ++ [with_sender row (Response.data lookup)]))
    ∧ (Session.awaiting (step s e) = Session.awaiting s
       ∨ (∃ row u c,
            e = ChatInsert row
            ∧ Session.chatSub s = Some (u, c)
            ∧ history_filter u c row = true
            ∧ Session.awaiting (step s e) = Session.awaiting s ++ [row])
       ∨ (∃ n lookup,
            e = SenderResolved n lookup
            ∧ Session.awaiting (step s e) = delete n (Session.awaiting s))).
Proof.
  intros s e. destruct e; try (by split; left).
  - split; [|by left]. left. simpl.
    by destruct (handleLogin_messages (Some client) lookup created
                   (Session.hooks s)).
  - split; [|by left]. left. simpl. apply sendMessage_messages.
  - split; [|by left].
    destruct data as [rows|]; [|by left]. right. left. by exists rows.
  - split; [|by left]. left. simpl. unfold run_effects.
    destruct (Session.activationDue s); [|done]. simpl.
    unfold activation_effect. by destruct (App.activeChat _).
  - simpl. destruct (Session.globalSub s) as [[u a]|]; by split; left.
  - destruct (Session.chatSub s) as [[u c]|] eqn:Hsub;
      [|by split; left; simpl; rewrite Hsub].
    rewrite (step_ChatInsert_awaiting s u c row Hsub).
    destruct (history_filter u c row) eqn:Hrow; [|by split; left].
    split; [by left|]. right. left. by exists row, u, c.
  - simpl. destruct (Session.awaiting s !! n) as [row|] eqn:Hn;
      [|by split; left].
    split.
    + right. right. by exists n, lookup, row.
    + right. right. by exists n, lookup.
Qed.

(** ** Logout, the stored user and failed sends *)

(** X12: logging out clears the current user and the active chat and
    nothing else: the unread map, the message list and the compose field
    are kept, and so are the two subscriptions until the effects run.
    Once they have run there is no subscription: rows of the feed are
    ignored and nothing is submitted.  A sender lookup that was still
    awaited adds its row to the list of the logged-out session when it
    answers.  A login that follows starts with the unread map and the
    list of the session before it and with no chat open. *)
Theorem logout_keeps_unread_and_messages :
  ∀ s,
    let out := step s LogoutClicked in
    let idle := step out EffectsRun in
    (App.currentUser (Session.hooks out) = None
     ∧ App.activeChat (Session.hooks out) = None
     ∧ App.unreadCounts (Session.hooks out)
       = App.unreadCounts (Session.hooks s)
     ∧ App.messages (Session.hooks out) = App.messages (Session.hooks s)
     ∧ App.newMessage (Session.hooks out)
       = App.newMessage (Session.hooks s)
     ∧ Session.globalSub out = Session.globalSub s
     ∧ Session.chatSub out = Session.chatSub s)
    ∧ (Session.hooks idle = Session.hooks out
       ∧ Session.globalSub idle = None
       ∧ Session.chatSub idle = None
       ∧ Session.awaiting idle = Session.awaiting s)
    ∧ (∀ row, step idle (GlobalInsert row) = idle)
    ∧ (∀ row, step idle (ChatInsert row) = idle)
    ∧ (∀ error,
         sendMessage error (Session.hooks idle) = (Session.hooks idle, []))
    ∧ (∀ n row lookup,
         Session.awaiting s !! n = Some row →
         App.messages (Session.hooks (step idle (SenderResolved n lookup)))
         = App.messages (Session.hooks s)
           ++ [with_sender row (Response.data lookup)])
    ∧ (∀ client lookup created,
         let next := step idle (LoginSubmitted client lookup created) in
         App.unreadCounts (Session.hooks next)
         = App.unreadCounts (Session.hooks s)
         ∧ App.messages (Session.hooks next)
           = App.messages (Session.hooks s)
         ∧ App.activeChat (Session.hooks next) = None).
Proof.
  intros s out idle. subst out idle.
  split; [done|]. split; [done|]. split; [done|]. split; [done|].
  split; [|split].
  - intros error. unfold sendMessage.
    match goal with
    | |- context [messageData_of ?st] =>
        assert (messageData_of st = None) as ->; [|done]
    end.
    apply messageData_of_None. right. by left.
  - intros n row lookup Hn. simpl. by rewrite Hn.
  - intros client lookup created next. subst next. cbn [step].
    unfold update_hooks. cbn [Session.hooks].
    match goal with
    | |- context [handleLogin _ _ _ ?st] =>
        destruct (handleLogin_keeps (Some client) lookup created st)
          as [-> ->];
        destruct (handleLogin_messages (Some client) lookup created st)
          as [-> _]
    end.
    done.
Qed.

(** X13: the user stored under ['chat_user'] and the current user stay the
    same: the mount effect sets the current user to the stored one, and
    when the two agree before a login, a logout or a send, they agree
    after it, whatever the backend answers. *)
Theorem stored_user_is_current_user :
  (∀ storage,
     App.currentUser (restoreUser storage App.initial)
     = storage !! "chat_user")
  ∧ (∀ storage st,
       storage !! "chat_user" = App.currentUser st →
       (∀ supabase lookup created,
          localStorage_after (handleLogin supabase lookup created st).2
                             storage !! "chat_user"
          = App.currentUser (handleLogin supabase lookup created st).1)
       ∧ localStorage_after (handleLogout st).2 storage !! "chat_user"
         = App.currentUser (handleLogout st).1
       ∧ (∀ error,
            localStorage_after (sendMessage error st).2 storage
              !! "chat_user"
            = App.currentUser (sendMessage error st).1)).
Proof.
  split.
  - intros storage. unfold restoreUser.
    by destruct (storage !! "chat_user").
  - intros storage st Hst. split; [|split].
    + intros supabase lookup created. unfold handleLogin.
      repeat case_match; simpl; try done; by rewrite lookup_insert_eq.
    + simpl. apply lookup_delete_eq.
    + intros error. unfold sendMessage.
      repeat case_match; simpl; done.
Qed.

(** X14: when the store rejects the insert of [sendMessage], no row is
    stored and the failure is reported by an alert, but the compose field
    is emptied all the same: the session is in the state a successful
    send leaves it in, and the typed text is in no hook. *)
Theorem rejected_send_clears_compose_field :
  ∀ id created_at st rows data,
    messageData_of st = Some data →
    id ∈ (Message.id <$> rows) →
    send_to_store id created_at st rows
    = (setNewMessage "" st,
       [InsertMessage data; ConsoleError "Send error:";
        Alert "Failed to send message"],
       rows)
    ∧ (sendMessage None st).1 = setNewMessage "" st.
Proof.
  intros id created_at st rows data Hdata Hin.
  unfold send_to_store, sendMessage, insert_message. rewrite Hdata.
  by rewrite bool_decide_eq_true_2.
Qed.

(** X19: [handleLogin] with a username that trims to the empty string
    issues no request and returns the state as it is.  With any other
    username it ends with [isLoggingIn] false and issues at most one
    insert.  Without a client it requests nothing: the error is logged,
    the alert is raised and nobody is logged in.  With a client it looks
    the trimmed name up first; when the insert then answers with neither
    an error nor a row, nobody is logged in and nothing is reported. *)
Theorem handleLogin_requests :
  ∀ supabase lookup created st,
    let out := handleLogin supabase lookup created st in
    (trim (App.usernameInput st) = "" → out = (st, []))
    ∧ (trim (App.usernameInput st) ≠ "" →
       App.isLoggingIn out.1 = false
       ∧ (length (List.filter is_insert out.2) ≤ 1)%nat
       ∧ (supabase = None →
          out.2 = [ConsoleError "Login error:";
                   Alert "Failed to login. Make sure Supabase is configured."]
          ∧ App.currentUser out.1 = App.currentUser st
          ∧ localStorage_after out.2 ∅ = ∅)
       ∧ (is_Some supabase →
          (∃ rest,
             out.2
             = SelectUserByUsername (trim (App.usernameInput st)) :: rest)
          ∧ (Response.data lookup = None →
             Response.error created = None →
             Response.data created = None →
             App.currentUser out.1 = App.currentUser st
             ∧ List.filter is_alert out.2 = []
             ∧ localStorage_after out.2 ∅ = ∅))).
Proof.
  intros supabase lookup created st out. subst out. unfold handleLogin.
  split.
  - intros Hname. by rewrite bool_decide_eq_true_2.
  - intros Hname. rewrite bool_decide_eq_false_2 by done.
    split; [by repeat case_match|].
    split; [repeat case_match; simpl; lia|].
    split; [by intros ->|].
    intros [client ->]. split.
    + repeat case_match; by eexists.
    + by intros -> -> ->.
Qed.

(** ** Groups and the sidebar *)

(** X15: [createGroup] does nothing for a blank name or without a current
    user.  When the insert fails it alerts and changes nothing, and no
    membership is requested.  When the insert returns the group row, one
    membership is requested, for the creator; the row is added at the end
    of the group list, the modal is closed and the name emptied, and the
    group becomes the active chat: its unread entry is 0 once the
    activation effect has run, and the next message sent goes to it. *)
Theorem createGroup_outcomes :
  ∀ created st sb,
    (trim (Sidebar.newGroupName sb) = "" ∨ App.currentUser st = None →
     createGroup created st sb = (st, sb, []))
    ∧ (∀ u,
         trim (Sidebar.newGroupName sb) ≠ "" →
         App.currentUser st = Some u →
         (∀ error,
            Response.error created = Some error →
            createGroup created st sb
            = (st, sb,
               [InsertGroup (trim (Sidebar.newGroupName sb));
                GroupAlert "Failed to create group"]))
         ∧ (∀ g,
              Response.error created = None →
              Response.data created = Some g →
              let st' := activation_effect (createGroup created st sb).1.1 in
              let sb' := (createGroup created st sb).1.2 in
              (createGroup created st sb).2
              = [InsertGroup (trim (Sidebar.newGroupName sb));
                 InsertGroupMember (GroupMember.mk (Group.id g) (User.id u))]
              ∧ Sidebar.groups sb' = Sidebar.groups sb ++ [g]
              ∧ Sidebar.isNewGroupModalOpen sb' = false
              ∧ Sidebar.newGroupName sb' = ""
              ∧ Sidebar.users sb' = Sidebar.users sb
              ∧ App.activeChat st' = Some (ActiveChat.mk group (Group.id g))
              ∧ App.unreadCounts st' !! Group.id g = Some 0
              ∧ (∀ text data,
                   messageData_of (setNewMessage text st') = Some data →
                   MessageData.group_id data = Some (Group.id g)
                   ∧ MessageData.receiver_id data = None))).
Proof.
  intros created st sb. unfold createGroup. split.
  - intros [Hname|Huser].
    + by rewrite bool_decide_eq_true_2.
    + case_bool_decide; [done|]. by rewrite Huser.
  - intros u Hname Hu. rewrite bool_decide_eq_false_2 by done. rewrite Hu.
    split.
    + by intros error ->.
    + intros g -> ->. simpl.
      do 6 (split; [done|]).
      split; [apply onConversationActivated_lookup|].
      intros text data Hdata.
      apply messageData_of_Some in Hdata
        as (u' & c' & _ & [= <-] & _ & _ & _ & Hkind).
      simpl in Hkind. by destruct Hkind.
Qed.





(** X17: computing [activeChatInfo] throws exactly when no chat is active
    and the group list is not empty: with no chat open, as after a login,
    it throws as soon as [fetchData] has stored a group.  With a chat
    open it never throws, and what it returns is nothing or a row of the
    kind of the chat, taken from the list of that kind, whose id is the
    id of the chat. *)
Theorem activeChatInfo_throws_without_active_chat :
  (∀ activeChat users groups,
     (∃ error, activeChatInfo activeChat users groups = inl error)
     ↔ activeChat = None ∧ groups ≠ [])
  ∧ (∀ sb userData g gs,
       let sb' := fetchData userData (Some (g :: gs)) sb in
       activeChatInfo None (Sidebar.users sb') (Sidebar.groups sb')
       = inl "TypeError")
  ∧ (∀ c users groups,
       ∃ info,
         activeChatInfo (Some c) users groups = inr info
         ∧ match info with
           | None => True
           | Some (UserInfo u) =>
               ActiveChat.type c = user ∧ User.id u = ActiveChat.id c
               ∧ In u users
           | Some (GroupInfo g) =>
               ActiveChat.type c = group ∧ Group.id g = ActiveChat.id c
               ∧ In g groups
           end).
Proof.
  split; [|split].
  - intros [c|] users groups; simpl.
    + split; [by intros [error [=]] | by intros [[=] _]].
    + destruct groups as [|g gs]; split.
      * by intros [error [=]].
      * intros [_ Hne]. by destruct Hne.
      * by intros _.
      * intros _. by eexists.
  - intros sb userData g gs sb'. subst sb'. by destruct userData.
  - intros c users groups. eexists. split; [done|].
    destruct (ActiveChat.type c) eqn:Hty.
    + destruct (find _ users) as [u|] eqn:Hfind; [|done]. simpl.
      apply find_some in Hfind as [Hin Hid].
      by apply bool_decide_eq_true in Hid.
    + destruct (find _ groups) as [g|] eqn:Hfind; [|done]. simpl.
      apply find_some in Hfind as [Hin Hid].
      by apply bool_decide_eq_true in Hid.
Qed.

(** ** The backend client *)

Lemma or_else_empty o : or_else o "" = "" ↔ ¬ present o.
Proof.
  destruct o as [s|]; simpl.
  - case_bool_decide as Hs.
    + split; [|done]. by intros _ (s' & [= <-] & Hne).
    + split; [done|]. intros Hn. destruct Hn. by exists s.
  - split; [|done]. by intros _ (s & [=] & _).
Qed.

(** X18: when one of the two environment variables is missing or empty,
    the module logs the error, does not call [createClient] and exports
    null.  When both are there it logs nothing and calls [createClient]
    with the two values: it exports the client that call returns, and
    throws what that call throws.  So the error is logged exactly when
    the module exports null. *)
Theorem supabase_client_iff_credentials :
  ∀ url key,
    let logged := (supabase_module url key).1 in
    let exported := (supabase_module url key).2 in
    (¬ present url ∨ ¬ present key →
     logged ≠ [] ∧ exported = inr None)
    ∧ (∀ u k, url = Some u → key = Some k → u ≠ "" → k ≠ "" →
              logged = []
              ∧ exported = match createClient u k with
                           | inl error => inl error
                           | inr client => inr (Some client)
                           end)
    ∧ (logged ≠ [] ↔ exported = inr None).
Proof.
  intros url key logged exported. subst logged exported.
  unfold supabase_module. cbn [fst snd].
  pose proof (or_else_empty url) as HU.
  pose proof (or_else_empty key) as HK.
  split; [|split].
  - intros [Hn|Hn]; [apply HU in Hn | apply HK in Hn]; rewrite Hn;
      repeat (case_bool_decide; simpl); done.
  - intros u k -> -> Hu Hk. simpl.
    repeat (case_bool_decide; simpl); done.
  - case_bool_decide as H1; case_bool_decide as H2; simpl;
      try (by split).
    split; [done|]. by destruct (createClient _ _).
Qed.

End Client.

(** ** The theorems at the sample data *)

Lemma String_leb_total a b : String.leb a b = true ∨ String.leb b a = true.
Proof. apply String.leb_total. Qed.

Lemma String_leb_trans a b c :
  String.leb a b = true → String.leb b c = true → String.leb a c = true.
Proof.
  intros Hab Hbc. apply Is_true_true.
  apply Is_true_true in Hab, Hbc.
  exact (PreOrder_Transitive (R := String.le) a b c Hab Hbc).
Qed.

Example ascii_trim_example : ascii_trim "  here " = "here".
Proof. reflexivity. Qed.

Example ascii_trim_blank : ascii_trim "   " = "".
Proof. reflexivity. Qed.

Example chatId_direct : chatId Sample.d1 = "u-alice".
Proof. reflexivity. Qed.

Example chatId_group : chatId Sample.p1 = "g-team".
Proof. reflexivity. Qed.

Example observe_elsewhere :
  onMessageObserved Sample.bob (Some Sample.chat_with_carol) Sample.d1
                    {["u-carol" := 0]}
  = {["u-alice" := 1; "u-carol" := 0]}.
Proof. by vm_compute. Qed.

Example observe_active :
  onMessageObserved Sample.bob (Some Sample.chat_with_carol) Sample.d4
                    {["u-carol" := 0]}
  = {["u-carol" := 0]}.
Proof. reflexivity. Qed.

Example observe_third_party :
  onMessageObserved Sample.carol None Sample.d1 ∅ = ∅.
Proof. reflexivity. Qed.

(** A direct message whose sender id is the id of the active group is not
    counted, although it is counted when nothing is active. *)
Example observe_direct_while_group_with_sender_id_active :
  let m := Sample.direct "m9" "g-team" "u-bob" "hi" "2024-05-01T11:00:00Z" in
  onMessageObserved Sample.bob (Some Sample.chat_team) m ∅ = ∅
  ∧ onMessageObserved Sample.bob None m ∅ = {["g-team" := 1]}.
Proof. split; reflexivity. Qed.

(** An empty [group_id] is falsy: the row is filed under its sender. *)
Example chatId_empty_group :
  chatId (Message.mk "m0" "u-alice" (Some "u-bob") (Some "") "hi" "t" None)
  = "u-alice".
Proof. reflexivity. Qed.

(** Bob's session from the start: rows that come before he opens his chat
    with Alice are counted, the effect after the selection sets her count
    to 0, and only Carol's row is counted after it. *)
Example activate_then_observe :
  App.unreadCounts
    (Session.hooks
       (run ascii_trim Session.initial
          [StoredUserFound Sample.bob; EffectsRun;
           GlobalInsert Sample.d1; GlobalInsert Sample.d2;
           ChatSelected Sample.chat_with_alice; EffectsRun;
           GlobalInsert Sample.d3; GlobalInsert Sample.d4]))
  = {["u-alice" := 0; "u-carol" := 1]}.
Proof. by vm_compute. Qed.

(** A row that the global callback of the render before observes between
    the selection of its chat and the effects is counted, and the effect
    then sets the count to 0. *)
Example observed_between_selection_and_effects :
  App.unreadCounts
    (Session.hooks
       (run ascii_trim Session.initial
          [StoredUserFound Sample.bob; EffectsRun;
           ChatSelected Sample.chat_with_alice; GlobalInsert Sample.d1]))
  = {["u-alice" := 1]}
  ∧ App.unreadCounts
      (Session.hooks
         (run ascii_trim Session.initial
            [StoredUserFound Sample.bob; EffectsRun;
             ChatSelected Sample.chat_with_alice; GlobalInsert Sample.d1;
             EffectsRun]))
    = {["u-alice" := 0]}.
Proof. split; by vm_compute. Qed.

(** A row delivered while Bob reads his chat with Alice, whose sender
    lookup answers after he has moved to his chat with Carol, is added to
    the list shown there. *)
Example stale_append_after_switch :
  App.messages
    (Session.hooks
       (run ascii_trim Sample.bob_reading_session
          [ChatInsert Sample.d2; ChatSelected Sample.chat_with_carol;
           EffectsRun; HistoryFetched (Some []);
           SenderResolved 0 (Response.mk (Some Sample.alice) None)]))
  = [with_sender Sample.d2 (Some Sample.alice)].
Proof. reflexivity. Qed.

(** A direct message from Bob reaches Alice while she has a group open
    whose id is Bob's user id: it is neither awaited by the chat callback
    nor counted. *)
Example neither_shown_nor_counted :
  step ascii_trim Sample.alice_in_group_named_bob (ChatInsert Sample.reply)
  = Sample.alice_in_group_named_bob
  ∧ App.unreadCounts
      (Session.hooks (step ascii_trim Sample.alice_in_group_named_bob
                           (GlobalInsert Sample.reply)))
    = {["u-bob" := 0]}.
Proof. split; by vm_compute. Qed.

Example login_existing :
  (handleLogin ascii_trim (Some Sample.client)
               (Response.mk (Some Sample.alice) None)
               (Response.mk None None) Sample.login_form).2
  = [SelectUserByUsername "alice";
     LocalStorageSetItem "chat_user" Sample.alice].
Proof. reflexivity. Qed.

Example login_without_client :
  handleLogin ascii_trim None (Response.mk (Some Sample.alice) None)
              (Response.mk None None) Sample.login_form
  = (Sample.login_form,
     [ConsoleError "Login error:";
      Alert "Failed to login. Make sure Supabase is configured."]).
Proof. reflexivity. Qed.

Example send_blank :
  sendMessage ascii_trim None (setNewMessage " " Sample.bob_composing)
  = (setNewMessage " " Sample.bob_composing, []).
Proof. reflexivity. Qed.

Example send_reply :
  send_to_store ascii_trim "m6" "2024-05-01T10:04:00Z" Sample.bob_composing
                [Sample.d1]
  = (Sample.bob_sent, [InsertMessage Sample.reply_data],
     [Sample.d1; Sample.reply]).
Proof. reflexivity. Qed.

Example history_sorted :
  Message.id <$> history_query String.leb Sample.bob Sample.chat_with_alice
                   Sample.users
                   [Sample.reply; Sample.d4; Sample.d2; Sample.p1; Sample.d1]
  = ["m1"; "m2"; "m6"].
Proof. reflexivity. Qed.

(** Three direct messages from Alice reach Bob while he views his chat
    with Carol. *)
Lemma C1_unread_increment_iff_witness :
  let counts' :=
    observe_all Sample.bob (Some Sample.chat_with_carol)
                [Sample.d1; Sample.d2; Sample.d3] {["u-carol" := 0]} in
  count_of counts' "u-alice" = 3 ∧ count_of counts' "u-carol" = 0.
Proof.
  apply (proj2 C1_unread_increment_iff Sample.bob Sample.chat_with_carol
               "u-alice" Sample.d1 Sample.d2 Sample.d3 {["u-carol" := 0]}).
  - repeat split.
  - repeat split.
  - repeat split.
  - discriminate.
  - discriminate.
  - reflexivity.
  - reflexivity.
Defined.

(** Bob restores his session, opens his chat with Carol, the effects run,
    and messages from Alice and from Carol arrive. *)
Lemma C2_count_zero_once_effect_ran_witness :
  let s := run ascii_trim Session.initial
             [StoredUserFound Sample.bob; EffectsRun;
              ChatSelected Sample.chat_with_carol; EffectsRun;
              GlobalInsert Sample.d1; GlobalInsert Sample.d4] in
  App.unreadCounts (Session.hooks s) !! "u-carol" = Some 0.
Proof.
  intros s.
  apply (proj1 (C2_count_zero_once_effect_ran ascii_trim) s
               Sample.chat_with_carol).
  - by eexists.
  - reflexivity.
  - reflexivity.
Defined.

(** The claim as stated fails: three messages from Alice are counted while
    Bob has nothing open, and he then selects his chat with Alice.  In the
    state of the render that follows, the chat is active and its count is
    3; so the count of the active conversation is not 0 in every
    reachable state. *)
Lemma C2_counterexample :
  reachable ascii_trim
    (run ascii_trim Session.initial
       [StoredUserFound Sample.bob; EffectsRun; GlobalInsert Sample.d1;
        GlobalInsert Sample.d2; GlobalInsert Sample.d3;
        ChatSelected Sample.chat_with_alice])
  ∧ App.activeChat
      (Session.hooks
         (run ascii_trim Session.initial
            [StoredUserFound Sample.bob; EffectsRun; GlobalInsert Sample.d1;
             GlobalInsert Sample.d2; GlobalInsert Sample.d3;
             ChatSelected Sample.chat_with_alice]))
    = Some Sample.chat_with_alice
  ∧ App.unreadCounts
      (Session.hooks
         (run ascii_trim Session.initial
            [StoredUserFound Sample.bob; EffectsRun; GlobalInsert Sample.d1;
             GlobalInsert Sample.d2; GlobalInsert Sample.d3;
             ChatSelected Sample.chat_with_alice]))
      !! "u-alice"
    = Some 3
  ∧ ¬ (∀ s c,
         reachable ascii_trim s →
         App.activeChat (Session.hooks s) = Some c →
         App.unreadCounts (Session.hooks s) !! ActiveChat.id c = Some 0).
Proof.
  split; [by eexists|]. split; [reflexivity|]. split; [by vm_compute|].
  intros Hclaim.
  specialize (Hclaim _ Sample.chat_with_alice
                     (ex_intro _ [StoredUserFound Sample.bob; EffectsRun;
                                  GlobalInsert Sample.d1;
                                  GlobalInsert Sample.d2;
                                  GlobalInsert Sample.d3;
                                  ChatSelected Sample.chat_with_alice]
                               eq_refl)
                     eq_refl).
  vm_compute in Hclaim. discriminate Hclaim.
Qed.

(** Alice's own post to the team group, observed by Alice. *)
Lemma C3_group_relevance_and_sender_guard_witness :
  isRelevant Sample.alice Sample.p1 = true
  ∧ (Message.sender_id Sample.p1 = User.id Sample.alice →
     ∀ a prev, onMessageObserved Sample.alice a Sample.p1 prev = prev)
  ∧ (Message.sender_id Sample.p1 ≠ User.id Sample.alice →
     ∀ a prev, onMessageObserved Sample.alice a Sample.p1 prev = prev
               ↔ is_active_chat a (chatId Sample.p1) = true).
Proof.
  apply (C3_group_relevance_and_sender_guard Sample.alice Sample.p1).
  exists "g-team". split; [reflexivity | discriminate].
Defined.

(** The claim as stated fails: Alice views her chat with Carol when her own
    post to the team group is observed.  The post passes the relevance
    test and the group is not the active conversation, yet no count is
    added; so a group message can leave the map unchanged although its
    conversation is not the active one. *)
Lemma C3_counterexample :
  present (Message.group_id Sample.p1)
  ∧ Message.sender_id Sample.p1 = User.id Sample.alice
  ∧ isRelevant Sample.alice Sample.p1 = true
  ∧ is_active_chat (Some Sample.chat_with_carol) (chatId Sample.p1) = false
  ∧ onMessageObserved Sample.alice (Some Sample.chat_with_carol) Sample.p1
                      {["u-carol" := 0]}
    = {["u-carol" := 0]}
  ∧ ¬ (∀ u a m prev,
         present (Message.group_id m) →
         onMessageObserved u a m prev = prev →
         is_active_chat a (chatId m) = true).
Proof.
  assert (present (Message.group_id Sample.p1)) as Hg.
  { exists "g-team". split; [reflexivity | discriminate]. }
  repeat split; try done.
  intros Hclaim.
  specialize (Hclaim Sample.alice (Some Sample.chat_with_carol) Sample.p1
                     {["u-carol" := 0]} Hg eq_refl).
  discriminate Hclaim.
Qed.


(** Bob has his chat with Alice open when her first message is inserted. *)
Lemma C5_direct_live_filter_witness :
  onChatInsert Sample.bob Sample.chat_with_alice
    (select_user_by_id Sample.users "u-alice") Sample.d1 []
  = ([with_sender Sample.d1 (Some Sample.alice)], [SelectUserById "u-alice"]).
Proof.
  apply (proj1 (C5_direct_live_filter Sample.bob Sample.chat_with_alice
                  (select_user_by_id Sample.users "u-alice") Sample.d1 []
                  eq_refl)).
  right. split; reflexivity.
Defined.

(** The claim as stated fails: the users table holds no row for Alice when
    her message to Bob is delivered to his chat with her.  The lookup
    answers without data, and the message is appended with no sender. *)
Lemma C5_counterexample :
  pair_predicate (User.id Sample.bob) (ActiveChat.id Sample.chat_with_alice)
                 Sample.d1
  ∧ Response.data (select_user_by_id [Sample.bob; Sample.carol] "u-alice")
    = None
  ∧ onChatInsert Sample.bob Sample.chat_with_alice
      (select_user_by_id [Sample.bob; Sample.carol] "u-alice") Sample.d1 []
    = ([Sample.d1], [SelectUserById "u-alice"])
  ∧ Message.sender Sample.d1 = None
  ∧ ¬ (∀ u c lookup m prev,
         ActiveChat.type c = user →
         pair_predicate (User.id u) (ActiveChat.id c) m →
         ∀ shown, In shown (onChatInsert u c lookup m prev).1 →
                  In shown prev ∨ is_Some (Message.sender shown)).
Proof.
  split; [right; split; reflexivity|]. repeat split.
  intros Hclaim.
  destruct (Hclaim Sample.bob Sample.chat_with_alice
                   (select_user_by_id [Sample.bob; Sample.carol] "u-alice")
                   Sample.d1 [] eq_refl
                   (or_intror (conj eq_refl eq_refl)) Sample.d1
                   (or_introl eq_refl))
    as [[]|[sender Hsender]].
  discriminate Hsender.
Qed.

(** Alice's first message is in the table when Bob's reply is inserted;
    Carol's message and Alice's group post follow; Alice then loads her
    chat with Bob. *)
Lemma C6_send_fetch_round_trip_witness :
  occurrences "m6"
    (history_query String.leb Sample.alice (ActiveChat.mk user "u-bob")
       Sample.users [Sample.d1; Sample.reply; Sample.d4; Sample.p1])
  = 1
  ∧ history_query String.leb Sample.alice (ActiveChat.mk user "u-bob")
      Sample.users [Sample.d1; Sample.reply; Sample.d4; Sample.p1]
    = history_query String.leb Sample.alice (ActiveChat.mk user "u-bob")
        Sample.users [Sample.d1]
      ++ join_sender Sample.users Sample.reply
         :: history_query String.leb Sample.alice (ActiveChat.mk user "u-bob")
              Sample.users [Sample.d4; Sample.p1].
Proof.
  destruct (proj2 (C6_send_fetch_round_trip ascii_trim String.leb
                     String_leb_total String_leb_trans)
                  [("m1", "2024-05-01T10:00:00Z",
                    MessageData.mk "u-alice" "hi" (Some "u-bob") None)]
                  Sample.bob_composing Sample.bob Sample.chat_with_alice
                  "m6" "2024-05-01T10:04:00Z" Sample.bob_sent
                  Sample.reply_data [Sample.d1; Sample.reply]
                  [("m4", "2024-05-01T10:05:00Z",
                    MessageData.mk "u-carol" "lunch" (Some "u-bob") None);
                   ("m5", "2024-05-01T10:06:00Z",
                    MessageData.mk "u-alice" "standup" None (Some "g-team"))]
                  eq_refl eq_refl eq_refl)
    as (row & later & Hrows & Htable & _ & _ & _ & _ & Hfetch).
  assert (row = Sample.reply) as ->
    by (vm_compute in Hrows; vm_compute; congruence).
  assert (later = [Sample.d4; Sample.p1]) as ->
    by (vm_compute in Htable; vm_compute; congruence).
  destruct (Hfetch Sample.alice (ActiveChat.mk user "u-bob") Sample.users)
    as (Hocc & _ & Hsplit).
  - split; [reflexivity|]. right. split; reflexivity.
  - split; [exact Hocc | exact (Hsplit eq_refl)].
Defined.

(** The claim as stated fails: the database stamps Bob's reply earlier
    than Alice's message, which is in the table already.  The reply is
    the second row inserted and the first row of the history, so the
    history is not in insertion order. *)
Lemma C6_counterexample :
  send_to_store ascii_trim "m6" "2024-05-01T09:00:00Z" Sample.bob_composing
                [Sample.d1]
  = (Sample.bob_sent, [InsertMessage Sample.reply_data],
     [Sample.d1; Sample.early_reply])
  ∧ Message.id <$> [Sample.d1; Sample.early_reply] = ["m1"; "m6"]
  ∧ Message.id
      <$> history_query String.leb Sample.bob Sample.chat_with_alice
            Sample.users [Sample.d1; Sample.early_reply]
    = ["m6"; "m1"]
  ∧ ¬ (∀ id created_at st rows st' data rows' u c users,
         App.currentUser st = Some u → App.activeChat st = Some c →
         send_to_store ascii_trim id created_at st rows
         = (st', [InsertMessage data], rows') →
         Message.id <$> history_query String.leb u c users rows'
         = Message.id <$> List.filter (history_filter u c) rows').
Proof.
  repeat split.
  intros Hclaim.
  specialize (Hclaim "m6" "2024-05-01T09:00:00Z" Sample.bob_composing
                     [Sample.d1] Sample.bob_sent Sample.reply_data
                     [Sample.d1; Sample.early_reply] Sample.bob
                     Sample.chat_with_alice Sample.users
                     eq_refl eq_refl eq_refl).
  vm_compute in Hclaim. discriminate Hclaim.
Qed.

(** Alice logs in for the first time and the insert of her row fails. *)
Lemma C8_login_find_or_create_witness :
  let out := handleLogin ascii_trim (Some Sample.client)
               (Response.mk None (Some "PGRST116"))
               (Response.mk None (Some "23505")) Sample.login_form in
  App.currentUser out.1 = None
  ∧ List.filter is_insert out.2 = [InsertUser "alice"]
  ∧ List.filter is_alert out.2
    = [Alert "Failed to login. Make sure Supabase is configured."]
  ∧ App.isLoggingIn out.1 = false.
Proof.
  intros out.
  apply (proj2 (proj2 (C8_login_find_or_create ascii_trim Sample.client
                         (Response.mk None (Some "PGRST116"))
                         (Response.mk None (Some "23505"))
                         Sample.login_form ltac:(discriminate)))
               "23505").
  - reflexivity.
  - reflexivity.
Defined.

(** Bob submits a blank text, then a reply. *)
Lemma C9_sendMessage_guard_witness :
  sendMessage ascii_trim None (setNewMessage "   " Sample.bob_composing)
  = (setNewMessage "   " Sample.bob_composing, [])
  ∧ ∃ data,
      List.filter is_insert (sendMessage ascii_trim None Sample.bob_composing).2
      = [InsertMessage data]
      ∧ MessageData.content data = "here"
      ∧ MessageData.sender_id data = "u-bob"
      ∧ MessageData.receiver_id data = Some "u-alice"
      ∧ MessageData.group_id data = None.
Proof.
  split.
  - apply (proj1 (C9_sendMessage_guard ascii_trim None
                    (setNewMessage "   " Sample.bob_composing))).
    left. reflexivity.
  - apply (proj2 (C9_sendMessage_guard ascii_trim None Sample.bob_composing)
                 Sample.bob Sample.chat_with_alice).
    + discriminate.
    + reflexivity.
    + reflexivity.
Defined.

(** ** The further properties at the sample data *)

(** A row with both targets set is appended to the open direct chat and
    counted under its group as well. *)
Example both_targets_shown_and_counted :
  App.messages
    (Session.hooks
       (run ascii_trim Sample.bob_reading_session
          [ChatInsert Sample.both_targets;
           SenderResolved 0 (Response.mk None None)]))
  = [with_sender Sample.d1 (Some Sample.alice); Sample.both_targets]
  ∧ App.unreadCounts
      (Session.hooks (step ascii_trim Sample.bob_reading_session
                           (GlobalInsert Sample.both_targets)))
    = {["g-team" := 1; "u-alice" := 0]}.
Proof. split; by vm_compute. Qed.

Example activeChatInfo_after_login_with_a_group :
  activeChatInfo (App.activeChat Sample.alice_idle) [] [Sample.team]
  = inl "TypeError"
  ∧ activeChatInfo (App.activeChat Sample.alice_idle) [] [] = inr None
  ∧ activeChatInfo (App.activeChat Sample.bob_reading) Sample.users
                   [Sample.team]
    = inr (Some (UserInfo Sample.alice)).
Proof. repeat split. Qed.

Lemma unread_counts_delivery_order_witness :
  observe_all Sample.bob (Some Sample.chat_with_carol)
              [Sample.d1; Sample.p1] ∅
  = observe_all Sample.bob (Some Sample.chat_with_carol)
                [Sample.p1; Sample.d1] ∅.
Proof.
  apply (unread_counts_delivery_order Sample.bob
           (Some Sample.chat_with_carol) [Sample.d1; Sample.p1]
           [Sample.p1; Sample.d1] ∅).
  apply Permutation_swap.
Defined.

Lemma shown_live_or_counted_never_both_witness :
  let s := run ascii_trim Session.initial
             [StoredUserFound Sample.bob;
              ChatSelected Sample.chat_with_alice; EffectsRun] in
  ¬ (App.messages
       (Session.hooks
          (run ascii_trim s
               [ChatInsert Sample.d2;
                SenderResolved (length (Session.awaiting s))
                               (Response.mk None None)]))
     ≠ App.messages (Session.hooks s)
     ∧ App.unreadCounts
         (Session.hooks (step ascii_trim s (GlobalInsert Sample.d2)))
       ≠ App.unreadCounts (Session.hooks s)).
Proof.
  intros s.
  apply (proj2 (shown_live_or_counted_never_both ascii_trim) s Sample.d2
               (Response.mk None None)).
  - apply (proj1 (shown_live_or_counted_never_both ascii_trim)).
    by eexists.
  - left. split; [by eexists | reflexivity].
Defined.

Lemma sender_receives_own_message_witness :
  let sent := step ascii_trim Sample.bob_composing_session
                   (MessageSubmitted None) in
  (∃ m,
     App.messages
       (Session.hooks
          (run ascii_trim sent
             [ChatInsert Sample.reply;
              SenderResolved 0 (select_user_by_id Sample.users "u-bob")]))
     = [m]
     ∧ Message.sender m = Some Sample.bob
     ∧ Message.id m = "m6"
     ∧ Message.content m = "here")
  ∧ step ascii_trim sent (GlobalInsert Sample.reply) = sent.
Proof.
  intros sent.
  destruct (sender_receives_own_message ascii_trim
              Sample.bob_composing_session Sample.bob
              Sample.chat_with_alice (Some Sample.chat_with_alice)
              "m6" "2024-05-01T10:04:00Z" [Sample.d1] Sample.bob_sent
              Sample.reply_data [Sample.d1; Sample.reply]
              eq_refl eq_refl eq_refl eq_refl eq_refl)
    as (row & Hrows & _ & _ & Hshown & Hglobal).
  simpl in Hrows. injection Hrows as <-.
  split; [|exact Hglobal].
  destruct (Hshown (select_user_by_id Sample.users "u-bob"))
    as (m & Hlist & Hsender & Hid & _ & Hcontent & _).
  exists m. split; [exact Hlist|]. split; [exact Hsender|].
  split; [exact Hid | exact Hcontent].
Defined.

Lemma receiver_sees_or_counts_message_witness :
  App.unreadCounts
    (Session.hooks (step ascii_trim Sample.alice_idle_session
                         (GlobalInsert Sample.reply)))
  = <[ "u-bob" := count_of (App.unreadCounts Sample.alice_idle) "u-bob" + 1 ]>
      (App.unreadCounts Sample.alice_idle).
Proof.
  destruct (receiver_sees_or_counts_message ascii_trim
              Sample.bob_composing Sample.bob Sample.chat_with_alice
              "m6" "2024-05-01T10:04:00Z" [Sample.d1] Sample.bob_sent
              Sample.reply_data [Sample.d1; Sample.reply]
              Sample.alice_idle_session Sample.alice None
              eq_refl eq_refl eq_refl eq_refl eq_refl eq_refl eq_refl
              ltac:(discriminate))
    as (row & Hrows & _ & Hcases).
  simpl in Hrows. injection Hrows as <-.
  destruct Hcases as (_ & _ & Hclosed).
  exact (proj2 (Hclosed eq_refl)).
Defined.

Lemma group_history_exact_witness :
  let fetched :=
    history_query String.leb Sample.bob Sample.chat_team Sample.users
                  [Sample.p2; Sample.d1; Sample.p1] in
  fetched
  ≡ₚ join_sender Sample.users
       <$> List.filter
             (λ row, bool_decide (Message.group_id row = Some "g-team"))
             [Sample.p2; Sample.d1; Sample.p1]
  ∧ chronological String.leb fetched = true
  ∧ ∀ m, In m fetched
         ↔ ∃ row, In row [Sample.p2; Sample.d1; Sample.p1]
                  ∧ Message.group_id row = Some "g-team"
                  ∧ m = join_sender Sample.users row.
Proof.
  apply (group_history_exact String.leb String_leb_total String_leb_trans
           Sample.bob Sample.chat_team Sample.users
           [Sample.p2; Sample.d1; Sample.p1]).
  reflexivity.
Defined.

Lemma live_append_agrees_with_reload_witness :
  App.messages
    (Session.hooks
       (run ascii_trim Sample.bob_reading_session
          [ChatInsert Sample.reply;
           SenderResolved 0 (select_user_by_id Sample.users "u-bob")]))
  = history_query String.leb Sample.bob Sample.chat_with_alice Sample.users
                  ([Sample.d1] ++ [Sample.reply]).
Proof.
  apply (live_append_agrees_with_reload ascii_trim String.leb
           Sample.bob_reading_session Sample.bob Sample.chat_with_alice
           Sample.users [Sample.d1] Sample.reply).
  - reflexivity.
  - apply (bool_decide_unpack _). reflexivity.
  - reflexivity.
  - reflexivity.
Defined.

Lemma live_append_does_not_deduplicate_witness :
  occurrences "m1"
    (App.messages
       (Session.hooks
          (run ascii_trim Sample.bob_reading_session
             [ChatInsert Sample.d1;
              SenderResolved 0 (Response.mk None None)])))
  = 2.
Proof.
  apply (live_append_does_not_deduplicate ascii_trim
           Sample.bob_reading_session Sample.bob Sample.chat_with_alice
           Sample.d1 (Response.mk None None)).
  - reflexivity.
  - reflexivity.
Defined.

Lemma stored_user_is_current_user_witness :
  localStorage_after (handleLogout Sample.bob_views_carol).2
                     {["chat_user" := Sample.bob]} !! "chat_user"
  = App.currentUser (handleLogout Sample.bob_views_carol).1.
Proof.
  apply (proj2 (stored_user_is_current_user ascii_trim)
               {["chat_user" := Sample.bob]} Sample.bob_views_carol).
  reflexivity.
Defined.

Lemma rejected_send_clears_compose_field_witness :
  send_to_store ascii_trim "m1" "2024-05-01T10:04:00Z" Sample.bob_composing
                [Sample.d1]
  = (setNewMessage "" Sample.bob_composing,
     [InsertMessage Sample.reply_data; ConsoleError "Send error:";
      Alert "Failed to send message"],
     [Sample.d1])
  ∧ (sendMessage ascii_trim None Sample.bob_composing).1
    = setNewMessage "" Sample.bob_composing.
Proof.
  apply (rejected_send_clears_compose_field ascii_trim "m1"
           "2024-05-01T10:04:00Z" Sample.bob_composing [Sample.d1]
           Sample.reply_data).
  - reflexivity.
  - apply (bool_decide_unpack _). reflexivity.
Defined.

Lemma createGroup_outcomes_witness :
  let out := createGroup ascii_trim (Response.mk (Some Sample.ops) None)
               Sample.bob_views_carol Sample.naming_group in
  out.2 = [InsertGroup "ops";
           InsertGroupMember (GroupMember.mk "g-ops" "u-bob")]
  ∧ Sidebar.groups out.1.2 = [Sample.team; Sample.ops]
  ∧ App.unreadCounts (activation_effect out.1.1) !! "g-ops" = Some 0.
Proof.
  intros out.
  destruct (proj2 (createGroup_outcomes ascii_trim
                     (Response.mk (Some Sample.ops) None)
                     Sample.bob_views_carol Sample.naming_group)
                  Sample.bob ltac:(discriminate) eq_refl) as [_ Hok].
  destruct (Hok Sample.ops eq_refl eq_refl)
    as (Hreq & Hgroups & _ & _ & _ & _ & Hzero & _).
  split; [exact Hreq|]. split; [exact Hgroups | exact Hzero].
Defined.


Lemma activeChatInfo_throws_without_active_chat_witness :
  ∃ error, activeChatInfo None Sample.users [Sample.team] = inl error.
Proof.
  apply (proj2 (proj1 activeChatInfo_throws_without_active_chat
                      None Sample.users [Sample.team])).
  split; [reflexivity | discriminate].
Defined.

Lemma supabase_client_iff_credentials_witness :
  (supabase_module Sample.create_client (Some "https://bchat.supabase.co")
                   (Some "anon-key")).1
  = []
  ∧ (supabase_module Sample.create_client (Some "https://bchat.supabase.co")
                     (Some "anon-key")).2
    = inr (Some Sample.client).
Proof.
  destruct (supabase_client_iff_credentials Sample.create_client
              (Some "https://bchat.supabase.co") (Some "anon-key"))
    as (_ & Hboth & _).
  exact (Hboth "https://bchat.supabase.co" "anon-key" eq_refl eq_refl
               ltac:(discriminate) ltac:(discriminate)).
Defined.

Lemma handleLogin_requests_witness :
  (let out := handleLogin ascii_trim None (Response.mk None None)
                (Response.mk None None) Sample.login_form in
   out.2 = [ConsoleError "Login error:";
            Alert "Failed to login. Make sure Supabase is configured."]
   ∧ App.currentUser out.1 = None
   ∧ localStorage_after out.2 ∅ = ∅)
  ∧ (let out := handleLogin ascii_trim (Some Sample.client)
                  (Response.mk None None) (Response.mk None None)
                  Sample.login_form in
     App.currentUser out.1 = None
     ∧ List.filter is_alert out.2 = []
     ∧ localStorage_after out.2 ∅ = ∅).
Proof.
  split.
  - destruct (handleLogin_requests ascii_trim None
                (Response.mk None None) (Response.mk None None)
                Sample.login_form) as [_ Hname].
    destruct (Hname ltac:(discriminate)) as (_ & _ & Hnone & _).
    exact (Hnone eq_refl).
  - destruct (handleLogin_requests ascii_trim (Some Sample.client)
                (Response.mk None None) (Response.mk None None)
                Sample.login_form) as [_ Hname].
    destruct (Hname ltac:(discriminate)) as (_ & _ & _ & Hsome).
    destruct (Hsome ltac:(by eexists)) as [_ Hsilent].
    exact (Hsilent eq_refl eq_refl eq_refl).
Defined.
